(** * Venspace campaign page: the lead-capture form

    A shallow embedding of the two versions of the landing page component
    [Home] kept in the repository:

    - [src/app/page.tsx], whose [onSubmit] posts the contact to the
      mailing-list endpoint (module [Page]);
    - [src/unnamed/part_000], whose [onSubmit] is a local stub
      (module [Stub]).

    Both versions share the validation schema [formSchema], the form's
    [defaultValues], the phone input's [onChange] normalisation and the
    items of the selection control; these are modelled once, before the two
    modules.

    Strings are Rocq [string]s: a character stands for one UTF-16 code unit
    below 256, which covers every literal of the source. *)

From Stdlib Require Import String Ascii List Bool Arith PeanoNat Lia.
Import ListNotations.
Open Scope string_scope.
Open Scope list_scope.

(** ** Regular expressions

    The fragment of JavaScript regular expressions used by the schema:
    character classes, concatenation, alternation, [?], [{m,n}] and [*].
    A pattern anchored by [^] and [$] (without the [m] flag) is matched
    against the whole subject, so [RegExp.prototype.test] on such a pattern
    is language membership; it is decided here with Brzozowski
    derivatives. *)

Module Regex.

Inductive regex : Type :=
| Void : regex                          (* matches nothing *)
| Eps : regex                           (* the empty string *)
| Class : (ascii -> bool) -> regex      (* one character of a class *)
| Seq : regex -> regex -> regex
| Alt : regex -> regex -> regex
| Star : regex -> regex.

(** [r?] *)
Definition Opt (r : regex) : regex := Alt r Eps.

(** [r{n}] *)
Fixpoint Times (n : nat) (r : regex) : regex :=
  match n with
  | 0 => Eps
  | S k => Seq r (Times k r)
  end.

(** [r{0,n}] *)
Fixpoint UpTo (n : nat) (r : regex) : regex :=
  match n with
  | 0 => Eps
  | S k => Opt (Seq r (UpTo k r))
  end.

(** [r{lo,hi}] *)
Definition Range (lo hi : nat) (r : regex) : regex :=
  Seq (Times lo r) (UpTo (hi - lo) r).

(** The strings a pattern denotes. *)
Inductive lang : regex -> list ascii -> Prop :=
| lang_eps : lang Eps []
| lang_class p c : p c = true -> lang (Class p) [c]
| lang_seq r1 r2 s1 s2 : lang r1 s1 -> lang r2 s2 -> lang (Seq r1 r2) (s1 ++ s2)
| lang_alt_l r1 r2 s : lang r1 s -> lang (Alt r1 r2) s
| lang_alt_r r1 r2 s : lang r2 s -> lang (Alt r1 r2) s
| lang_star_nil r : lang (Star r) []
| lang_star_app r s1 s2 : lang r s1 -> lang (Star r) s2 -> lang (Star r) (s1 ++ s2).

Fixpoint nullable (r : regex) : bool :=
  match r with
  | Void => false
  | Eps => true
  | Class _ => false
  | Seq r1 r2 => nullable r1 && nullable r2
  | Alt r1 r2 => nullable r1 || nullable r2
  | Star _ => true
  end.

Fixpoint deriv (c : ascii) (r : regex) : regex :=
  match r with
  | Void => Void
  | Eps => Void
  | Class p => if p c then Eps else Void
  | Seq r1 r2 =>
      if nullable r1
      then Alt (Seq (deriv c r1) r2) (deriv c r2)
      else Seq (deriv c r1) r2
  | Alt r1 r2 => Alt (deriv c r1) (deriv c r2)
  | Star r1 => Seq (deriv c r1) (Star r1)
  end.

Fixpoint matches (r : regex) (s : list ascii) : bool :=
  match s with
  | [] => nullable r
  | c :: s' => matches (deriv c r) s'
  end.

(** [re.test(s)] for a pattern of the form [^r$]. *)
Definition test (r : regex) (s : string) : bool :=
  matches r (list_ascii_of_string s).

End Regex.

(** ** Character classes *)

Definition code (c : ascii) : nat := nat_of_ascii c.

Definition is_char (x c : ascii) : bool := Ascii.eqb c x.

(** [\d], the same as [[0-9]] *)
Definition is_digit (c : ascii) : bool :=
  Nat.leb 48 (code c) && Nat.leb (code c) 57.

(** [\s] on code units below 256: TAB, LF, VT, FF, CR, space and the
    no-break space. *)
Definition is_space (c : ascii) : bool :=
  (Nat.leb 9 (code c) && Nat.leb (code c) 13)
  || Nat.eqb (code c) 32 || Nat.eqb (code c) 160.

(** [[-\s./0-9]] *)
Definition is_phone_tail (c : ascii) : bool :=
  is_char "-" c || is_space c || is_char "." c || is_char "/" c || is_digit c.

(** The pattern [/^[+]?[(]?[0-9]{1,4}[)]?[-\s./0-9]*$/] of [formSchema.phone]. *)
Definition phone_regex : Regex.regex :=
  Regex.Seq (Regex.Opt (Regex.Class (is_char "+")))
    (Regex.Seq (Regex.Opt (Regex.Class (is_char "(")))
       (Regex.Seq (Regex.Range 1 4 (Regex.Class is_digit))
          (Regex.Seq (Regex.Opt (Regex.Class (is_char ")")))
             (Regex.Star (Regex.Class is_phone_tail))))).

(** ** The validation schema [formSchema]

    A zod string schema runs its checks in the order they were chained and
    records one issue per failing check, without stopping at the first. *)

Definition msg_email : string := "Please enter a valid email address.".
Definition msg_phone_min : string := "Phone number must be at least 10 digits".
Definition msg_phone_max : string := "Phone number must be at most 15 digits".
Definition msg_phone_regex : string := "Please enter a valid phone number".
Definition msg_description : string := "Please select what best describes you".

(** One check of a string schema: the issue's message when it fails. *)
Definition check (failed : bool) (message : string) : list string :=
  if failed then [message] else [].

(** [.min(n)] fails when [length < n], [.max(n)] when [length > n]. *)
Definition check_min (n : nat) (message s : string) : list string :=
  check (Nat.ltb (String.length s) n) message.

Definition check_max (n : nat) (message s : string) : list string :=
  check (Nat.ltb n (String.length s)) message.

Definition check_regex (r : Regex.regex) (message s : string) : list string :=
  check (negb (Regex.test r s)) message.

(** [formSchema.phone] *)
Definition phone_issues (s : string) : list string :=
  check_min 10 msg_phone_min s
  ++ check_max 15 msg_phone_max s
  ++ check_regex phone_regex msg_phone_regex s.

(** [formSchema.description] *)
Definition description_issues (s : string) : list string :=
  check_min 1 msg_description s.

(** The resolver reports, for each field, the message of its first issue. *)
Definition first_issue (issues : list string) : option string :=
  match issues with
  | [] => None
  | m :: _ => Some m
  end.

Definition phone_error (s : string) : option string :=
  first_issue (phone_issues s).

Definition description_error (s : string) : option string :=
  first_issue (description_issues s).

(** ** The form's data

    [z.infer<typeof formSchema>]: three string fields. *)

Record FormValues : Type := mkFormValues {
  email : string;
  phone : string;
  description : string
}.

(** The [defaultValues] given to [useForm]: the values at page load. *)
Definition defaultValues : FormValues :=
  {| email := ""; phone := ""; description := "" |}.

(** The items of [SelectContent]; the control reports an item's [value]. *)
Inductive SelectItem : Type :=
| OwnSpace
| HuntingSpace
| OwnAndLooking.

Definition item_value (i : SelectItem) : string :=
  match i with
  | OwnSpace => "I own a space to share"
  | HuntingSpace => "I am hunting for the perfect space"
  | OwnAndLooking => "Both! I own and I am looking "
  end.

Definition select_items : list SelectItem :=
  [OwnSpace; HuntingSpace; OwnAndLooking].

(** [s.replace(/[...]/g, "")] for a one-character class: every character of
    the class is deleted, the others are kept in order. *)
Fixpoint replace_class_global (cls : ascii -> bool) (s : string) : string :=
  match s with
  | EmptyString => EmptyString
  | String c rest =>
      if cls c
      then replace_class_global cls rest
      else String c (replace_class_global cls rest)
  end.

(** [[\d+-]] and its complement [[^\d+-]] *)
Definition is_phone_char (c : ascii) : bool :=
  is_digit c || is_char "+" c || is_char "-" c.

Definition not_phone_char (c : ascii) : bool := negb (is_phone_char c).

(** The phone input's [onChange]: the value handed to [field.onChange]. *)
Definition phone_onChange (typed : string) : string :=
  replace_class_global not_phone_char typed.

(** ** The outbound call and its answer *)

(** [process.env] as the handler reads it; [None] is [undefined]. *)
Record Env : Type := mkEnv {
  NEXT_PUBLIC_ZOHO_LIST_KEY : option string;
  ZOHO_OAUTH_TOKEN : option string
}.

(** A JavaScript object with string members, in insertion order. *)
Definition JsObject : Type := list (string * string).

(** A query parameter. The [contactinfo] parameter is kept as the object
    that the handler serialises with [JSON.stringify] and
    [encodeURIComponent]; the encoding itself is not modelled. *)
Inductive Param : Type :=
| Text (s : string)
| EncodedJson (o : JsObject).

Record Request : Type := mkRequest {
  url : string;
  searchParams : list (string * Param);
  method : string;
  headers : JsObject;
  mode : string
}.

(** The two members of the parsed body that the handler reads. [None]
    stands for a member that is absent or is not a string. *)
Record ResponseData : Type := mkResponseData {
  status : option string;
  message : option string
}.

(** What [await response.json()] and the member reads after it give:
    either an exception (the body is not JSON, or it is [null]) with its
    message, or the parsed value. *)
Inductive Body : Type :=
| Unreadable (error : string)
| Json (d : ResponseData).

Record Response : Type := mkResponse {
  ok : bool;
  body : Body
}.

(** What [await fetch(...)] gives: a rejection (network failure) with its
    message, or a response. *)
Inductive FetchOutcome : Type :=
| Rejected (error : string)
| Resolved (r : Response).

(** ** Component state and effects *)

Inductive Effect : Type :=
| LogValues (v : FormValues)            (* console.log(values) *)
| LogSubscribed (d : ResponseData)      (* console.log('Successfully subscribed:', ...) *)
| LogError (error : string)             (* console.error('Subscription error:', error) *)
| Alert (text : string)                 (* alert(text) *)
| Fetch (req : Request).                (* fetch(url, init) *)

(** The two [useState] cells, the values held by [useForm], and the
    effects performed so far, oldest first. *)
Record State : Type := mkState {
  loading : bool;
  showSuccess : bool;
  form : FormValues;
  effects : list Effect
}.

(** The state at page load. *)
Definition initial : State :=
  {| loading := false; showSuccess := false;
     form := defaultValues; effects := [] |}.

(** The submit [Button] is rendered with [disabled={loading}]. *)
Definition button_disabled (st : State) : bool := loading st.

(** ** Handlers: state with exceptions

    A handler runs from a state to a completion and a state; what it did to
    the state before throwing stays done. *)

Inductive Completion (A : Type) : Type :=
| Normal (a : A)
| Throw (error : string).

Arguments Normal {A} a.
Arguments Throw {A} error.

Definition Handler (A : Type) : Type := State -> Completion A * State.

Definition ret {A : Type} (a : A) : Handler A := fun st => (Normal a, st).

Definition throw {A : Type} (error : string) : Handler A :=
  fun st => (Throw error, st).

Definition bind {A B : Type} (m : Handler A) (k : A -> Handler B) : Handler B :=
  fun st =>
    match m st with
    | (Normal a, st') => k a st'
    | (Throw e, st') => (Throw e, st')
    end.

Declare Scope handler_scope.
Delimit Scope handler_scope with handler.
Notation "x <- m ;; k" := (bind m (fun x => k))
  (at level 61, m at next level, right associativity) : handler_scope.
Notation "m ;; k" := (bind m (fun _ => k))
  (at level 61, right associativity) : handler_scope.

(** [try { body } catch (error) { handler } finally { finalizer }] *)
Definition try_catch_finally
    (body : Handler unit) (handler : string -> Handler unit)
    (finalizer : Handler unit) : Handler unit :=
  fun st =>
    match body st with
    | (Normal _, st1) => finalizer st1
    | (Throw e, st1) =>
        match handler e st1 with
        | (Normal _, st2) => finalizer st2
        | (Throw e', st2) =>
            match finalizer st2 with
            | (Normal _, st3) => (Throw e', st3)
            | thrown => thrown
            end
        end
    end.

Definition setLoading (b : bool) : Handler unit :=
  fun st => (Normal tt, {| loading := b; showSuccess := showSuccess st;
                          form := form st; effects := effects st |}).

Definition setShowSuccess (b : bool) : Handler unit :=
  fun st => (Normal tt, {| loading := loading st; showSuccess := b;
                          form := form st; effects := effects st |}).

(** [form.reset(values)]: the form's values become [values]. *)
Definition form_reset (values : FormValues) : Handler unit :=
  fun st => (Normal tt, {| loading := loading st; showSuccess := showSuccess st;
                          form := values; effects := effects st |}).

(** [field.onChange(value)] of a form field: the form's values change,
    nothing else does. *)
Definition set_form (v : FormValues) (st : State) : State :=
  {| loading := loading st; showSuccess := showSuccess st;
     form := v; effects := effects st |}.

Definition perform (e : Effect) : Handler unit :=
  fun st => (Normal tt, {| loading := loading st; showSuccess := showSuccess st;
                          form := form st; effects := effects st ++ [e] |}).

(** The state a handler leaves. *)
Definition exec {A : Type} (m : Handler A) (st : State) : State := snd (m st).

(** ** JavaScript operators on strings *)

(** A string is truthy unless it is empty; [undefined] is falsy. *)
Definition truthy (s : string) : bool := negb (String.eqb s "").

Definition truthy_opt (o : option string) : bool :=
  match o with
  | Some s => truthy s
  | None => false
  end.

(** [a || b] for an optional string [a] *)
Definition or_else (a : option string) (b : string) : string :=
  match a with
  | Some s => if truthy s then s else b
  | None => b
  end.

(** [`${a}`] for an optional string [a] *)
Definition template (a : option string) : string :=
  match a with
  | Some s => s
  | None => "undefined"
  end.

(** [...(cond && obj)] inside an object literal: the members of [obj]
    when [cond] is truthy, nothing otherwise. *)
Definition spread_if (cond : bool) (obj : JsObject) : JsObject :=
  if cond then obj else [].

(** ** The resolver and [handleSubmit]

    [zodResolver(formSchema)] maps the form's values to the failing fields,
    each with the message of its first issue. [form.handleSubmit(onSubmit)]
    runs [onSubmit] on the form's values when no field fails and does not
    run it otherwise. The email pattern belongs to the zod library and is a
    parameter here. *)

Section Resolver.

Variable email_ok : string -> bool.

Definition email_issues (s : string) : list string :=
  check (negb (email_ok s)) msg_email.

Definition field_error (name : string) (issues : list string) : JsObject :=
  match first_issue issues with
  | Some m => [(name, m)]
  | None => []
  end.

Definition resolver (v : FormValues) : JsObject :=
  field_error "email" (email_issues (email v))
  ++ field_error "phone" (phone_issues (phone v))
  ++ field_error "description" (description_issues (description v)).

Definition handleSubmit (onValid : FormValues -> Handler unit) : Handler unit :=
  fun st =>
    match resolver (form st) with
    | [] => onValid (form st) st
    | _ :: _ => (Normal tt, st)
    end.

End Resolver.

(** ** [src/app/page.tsx]: submission to the mailing-list endpoint *)

Module Page.

Local Open Scope handler_scope.

(** The values [onSubmit] passes to [form.reset]. *)
Definition resetValues : FormValues :=
  {| email := ""; phone := ""; description := "Select" |}.

(** The [contactInfo] object literal. *)
Definition contactInfo (values : FormValues) : JsObject :=
  [("Contact Email", email values)]
  ++ spread_if (truthy (phone values)) [("Phone", phone values)]
  ++ spread_if (negb (String.eqb (description values) "Select"))
       [("Description", description values)].

(** The [headers] object literal of the call. *)
Definition request_headers (env : Env) : JsObject :=
  [("Content-Type", "application/json")]
  ++ spread_if (truthy_opt (ZOHO_OAUTH_TOKEN env))
       [("Authorization",
         String.append "Zoho-oauthtoken " (template (ZOHO_OAUTH_TOKEN env)))].

(** The arguments of [fetch]: [apiUrl] with its parameters, and the
    options. *)
Definition request (env : Env) (values : FormValues) : Request :=
  {| url := "https://campaigns.zoho.com/api/v1.1/json/listsubscribe";
     searchParams :=
       [("resfmt", Text "JSON");
        ("listkey", Text (template (NEXT_PUBLIC_ZOHO_LIST_KEY env)));
        ("contactinfo", EncodedJson (contactInfo values));
        ("source", Text "WebsiteForm")];
     method := "POST";
     headers := request_headers env;
     mode := "cors" |}.

(** [await fetch(...)] against a network that answers [net req]. *)
Definition fetch (net : Request -> FetchOutcome) (req : Request)
  : Handler Response :=
  perform (Fetch req) ;;
  match net req with
  | Rejected e => throw e
  | Resolved r => ret r
  end.

(** [await response.json()] *)
Definition json (r : Response) : Handler ResponseData :=
  match body r with
  | Unreadable e => throw e
  | Json d => ret d
  end.

(** [responseData.status === 'error'] *)
Definition status_is_error (d : ResponseData) : bool :=
  match status d with
  | Some s => String.eqb s "error"
  | None => false
  end.

(** The body of the [try] block. *)
Definition onSubmit_try (env : Env) (net : Request -> FetchOutcome)
    (values : FormValues) : Handler unit :=
  setLoading true ;;
  response <- fetch net (request env values) ;;
  responseData <- json response ;;
  (if negb (ok response) || status_is_error responseData
   then throw (or_else (message responseData) "Subscription failed")
   else ret tt) ;;
  perform (LogSubscribed responseData) ;;
  setShowSuccess true ;;
  form_reset resetValues.

(** The [catch] block. *)
Definition onSubmit_catch (error : string) : Handler unit :=
  perform (LogError error) ;;
  perform (Alert (String.append "Subscription failed: " error)).

(** [onSubmit], run to its completion against the network's answer. The
    call has no timeout: the handler completes when the network answers. *)
Definition onSubmit (env : Env) (net : Request -> FetchOutcome)
    (values : FormValues) : Handler unit :=
  try_catch_finally
    (onSubmit_try env net values)
    onSubmit_catch
    (setLoading false).

(** The user's actions on the page. Pressing the submit control comes with
    the answer the network will give to the call, if one is made. *)
Inductive Event : Type :=
| TypeEmail (text : string)
| TypePhone (text : string)
| ChooseDescription (item : SelectItem)
| PressSubmit (reply : FetchOutcome).

Section Component.

Variable email_ok : string -> bool.
Variable env : Env.

Definition step (st : State) (ev : Event) : State :=
  match ev with
  | TypeEmail text =>
      set_form {| email := text; phone := phone (form st);
                  description := description (form st) |} st
  | TypePhone text =>
      set_form {| email := email (form st); phone := phone_onChange text;
                  description := description (form st) |} st
  | ChooseDescription item =>
      set_form {| email := email (form st); phone := phone (form st);
                  description := item_value item |} st
  | PressSubmit reply =>
      if button_disabled st then st
      else exec (handleSubmit email_ok (onSubmit env (fun _ => reply))) st
  end.

Definition run (st : State) (evs : list Event) : State :=
  fold_left step evs st.

End Component.

End Page.

(** ** [src/unnamed/part_000]: the local stub *)

Module Stub.

Local Open Scope handler_scope.

(** The values [onSubmit] passes to [form.reset]. *)
Definition resetValues : FormValues :=
  {| email := ""; phone := ""; description := "Select" |}.

(** [onSubmit]: logs the values, shows the success line, sets [loading]
    and resets the form. *)
Definition onSubmit (values : FormValues) : Handler unit :=
  perform (LogValues values) ;;
  setShowSuccess true ;;
  setLoading true ;;
  form_reset resetValues.

Inductive Event : Type :=
| TypeEmail (text : string)
| TypePhone (text : string)
| ChooseDescription (item : SelectItem)
| PressSubmit.

Section Component.

Variable email_ok : string -> bool.

Definition step (st : State) (ev : Event) : State :=
  match ev with
  | TypeEmail text =>
      set_form {| email := text; phone := phone (form st);
                       description := description (form st) |} st
  | TypePhone text =>
      set_form {| email := email (form st); phone := phone_onChange text;
                       description := description (form st) |} st
  | ChooseDescription item =>
      set_form {| email := email (form st); phone := phone (form st);
                       description := item_value item |} st
  | PressSubmit =>
      if button_disabled st then st
      else exec (handleSubmit email_ok onSubmit) st
  end.

Definition run (st : State) (evs : list Event) : State :=
  fold_left step evs st.

End Component.

End Stub.

(** ** The URL of the call

    [onSubmit] of [src/app/page.tsx] serialises [contactInfo] with
    [JSON.stringify], encodes the text with [encodeURIComponent], appends
    it to [apiUrl.searchParams] and passes [apiUrl.toString()] to [fetch].
    The platform functions are modelled on strings of code units below
    256, where no surrogate occurs. *)

Module Url.

Local Open Scope string_scope.

Definition is_alnum (c : ascii) : bool :=
  is_digit c
  || (Nat.leb 65 (code c) && Nat.leb (code c) 90)
  || (Nat.leb 97 (code c) && Nat.leb (code c) 122).

(** The characters [encodeURIComponent] leaves as they are: letters,
    digits and [- _ . ! ~ * ' ( )]. *)
Definition uri_unreserved (c : ascii) : bool :=
  is_alnum c
  || is_char "-" c || is_char "_" c || is_char "." c || is_char "!" c
  || is_char "~" c || is_char "*" c || is_char "'" c || is_char "(" c
  || is_char ")" c.

(** The characters the [application/x-www-form-urlencoded] serialiser of
    [URLSearchParams] leaves as they are: letters, digits and [* - . _]. *)
Definition form_unreserved (c : ascii) : bool :=
  is_alnum c
  || is_char "*" c || is_char "-" c || is_char "." c || is_char "_" c.

Definition hex_upper (n : nat) : ascii :=
  nth n (list_ascii_of_string "0123456789ABCDEF") "0"%char.

Definition hex_lower (n : nat) : ascii :=
  nth n (list_ascii_of_string "0123456789abcdef") "0"%char.

(** [%XX] for one byte *)
Definition percent (b : nat) : string :=
  String "%" (String (hex_upper (b / 16)) (String (hex_upper (b mod 16)) "")).

(** The UTF-8 bytes of a code unit below 256. *)
Definition utf8 (c : ascii) : list nat :=
  if Nat.ltb (code c) 128 then [code c]
  else [192 + code c / 64; 128 + code c mod 64].

Definition percent_encode (c : ascii) : string :=
  String.concat "" (map percent (utf8 c)).

Fixpoint encodeURIComponent (s : string) : string :=
  match s with
  | EmptyString => EmptyString
  | String c rest =>
      (if uri_unreserved c then String c "" else percent_encode c)
      ++ encodeURIComponent rest
  end.

(** The serialiser of [URLSearchParams]: a space becomes [+]. *)
Fixpoint form_urlencode (s : string) : string :=
  match s with
  | EmptyString => EmptyString
  | String c rest =>
      (if is_char " " c then "+"
       else if form_unreserved c then String c ""
       else percent_encode c)
      ++ form_urlencode rest
  end.

Definition dquote : ascii := ascii_of_nat 34.

(** [JSON.stringify] of a string, without the enclosing quotes: the short
    escapes, [\u00XX] for the other control characters, the rest as it
    is. *)
Definition json_escape_char (c : ascii) : string :=
  if Nat.eqb (code c) 8 then "\b"
  else if Nat.eqb (code c) 9 then "\t"
  else if Nat.eqb (code c) 10 then "\n"
  else if Nat.eqb (code c) 12 then "\f"
  else if Nat.eqb (code c) 13 then "\r"
  else if Nat.eqb (code c) 34 then String "\" (String dquote "")
  else if Nat.eqb (code c) 92 then "\\"
  else if Nat.ltb (code c) 32
       then "\u00" ++ String (hex_lower (code c / 16))
                        (String (hex_lower (code c mod 16)) "")
  else String c "".

Fixpoint json_escape (s : string) : string :=
  match s with
  | EmptyString => EmptyString
  | String c rest => json_escape_char c ++ json_escape rest
  end.

Definition json_quote (s : string) : string :=
  String dquote (json_escape s ++ String dquote "").

(** [JSON.stringify] of an object with string members. *)
Definition JSON_stringify (o : JsObject) : string :=
  "{"
  ++ String.concat ","
       (map (fun kv => json_quote (fst kv) ++ ":" ++ json_quote (snd kv)) o)
  ++ "}".

(** The text appended to [searchParams] for a parameter. *)
Definition param_text (p : Param) : string :=
  match p with
  | Text s => s
  | EncodedJson o => encodeURIComponent (JSON_stringify o)
  end.

(** [searchParams.toString()] *)
Definition serialize (params : list (string * Param)) : string :=
  String.concat "&"
    (map (fun np => form_urlencode (fst np) ++ "="
                    ++ form_urlencode (param_text (snd np))) params).

(** [apiUrl.toString()]: the first argument of [fetch]. *)
Definition href (req : Request) : string :=
  match searchParams req with
  | [] => url req
  | _ :: _ => url req ++ "?" ++ serialize (searchParams req)
  end.

End Url.

(** * Properties *)

(** ** The matcher decides the language of a pattern *)

Module RegexFacts.
Import Regex.

Lemma nullable_lang (r : regex) : nullable r = true <-> lang r [].
Proof.
  induction r as [| | p | r1 IH1 r2 IH2 | r1 IH1 r2 IH2 | r IH]; simpl.
  - split; [discriminate | intro H; inversion H].
  - split; [constructor | reflexivity].
  - split; [discriminate | intro H; inversion H].
  - rewrite andb_true_iff, IH1, IH2. split.
    + intros [H1 H2]. exact (lang_seq _ _ [] [] H1 H2).
    + intro H. inversion H as [| | a b s1 s2 H1 H2 | | | |]; subst.
      destruct s1, s2; try discriminate. now split.
  - rewrite orb_true_iff, IH1, IH2. split.
    + intros [H | H]; [now apply lang_alt_l | now apply lang_alt_r].
    + intro H. inversion H; subst; [now left | now right].
  - split; [constructor | reflexivity].
Qed.

(** A non-empty member of [r*] starts with a non-empty member of [r]. *)
Lemma lang_star_cons (r : regex) (c : ascii) (s : list ascii) :
  lang (Star r) (c :: s) ->
  exists s1 s2, s = s1 ++ s2 /\ lang r (c :: s1) /\ lang (Star r) s2.
Proof.
  intro H. remember (Star r) as q eqn:Eq. remember (c :: s) as w eqn:Ew.
  revert Eq Ew.
  induction H as [| | | | | | r' s1 s2 H1 _ H2 IH2]; intros Eq Ew;
    try discriminate.
  injection Eq as ->.
  destruct s1 as [| a s1]; simpl in Ew.
  - now apply IH2.
  - injection Ew as E1 E2. subst. now exists s1, s2.
Qed.

Lemma deriv_lang (c : ascii) (r : regex) (s : list ascii) :
  lang (deriv c r) s <-> lang r (c :: s).
Proof.
  revert s.
  induction r as [| | p | r1 IH1 r2 IH2 | r1 IH1 r2 IH2 | r IH];
    intro s; simpl.
  - split; intro H; inversion H.
  - split; intro H; inversion H.
  - destruct (p c) eqn:Hp; split; intro H; inversion H; subst.
    + now constructor.
    + constructor.
    + congruence.
  - assert (Hseq : forall w, lang (Seq (deriv c r1) r2) w ->
                            lang (Seq r1 r2) (c :: w)).
    { intros w H. inversion H as [| | a b s1 s2 H1 H2 | | | |]; subst.
      apply IH1 in H1. exact (lang_seq _ _ (c :: s1) s2 H1 H2). }
    assert (Hinv : lang (Seq r1 r2) (c :: s) ->
                   lang (Seq (deriv c r1) r2) s
                   \/ (lang r1 [] /\ lang r2 (c :: s))).
    { intro H. remember (c :: s) as w eqn:Ew.
      inversion H as [| | a b s1 s2 H1 H2 | | | |]; subst.
      destruct s1 as [| a s1]; simpl in *.
      - right. subst. now split.
      - match goal with E : _ :: _ = _ :: _ |- _ => injection E as E1 E2 end.
        subst. left. apply lang_seq; [now apply IH1 | exact H2]. }
    destruct (nullable r1) eqn:Hn; split; intro H.
    + inversion H; subst; [now apply Hseq |].
      apply nullable_lang in Hn.
      match goal with K : lang (deriv c r2) _ |- _ => apply IH2 in K;
        exact (lang_seq _ _ [] _ Hn K) end.
    + destruct (Hinv H) as [K | [_ K]];
        [now apply lang_alt_l | apply lang_alt_r; now apply IH2].
    + now apply Hseq.
    + destruct (Hinv H) as [K | [K _]]; [exact K |].
      apply nullable_lang in K. congruence.
  - split; intro H; inversion H; subst.
    + apply lang_alt_l. now apply IH1.
    + apply lang_alt_r. now apply IH2.
    + apply lang_alt_l. now apply IH1.
    + apply lang_alt_r. now apply IH2.
  - split; intro H.
    + inversion H as [| | a b s1 s2 H1 H2 | | | |]; subst.
      apply IH in H1. exact (lang_star_app _ (c :: s1) s2 H1 H2).
    + apply lang_star_cons in H. destruct H as (s1 & s2 & -> & H1 & H2).
      apply lang_seq; [now apply IH | exact H2].
Qed.

Lemma matches_lang (r : regex) (s : list ascii) :
  matches r s = true <-> lang r s.
Proof.
  revert r. induction s as [| c s IH]; intro r; simpl.
  - apply nullable_lang.
  - rewrite IH. apply deriv_lang.
Qed.

(** Every string over a class belongs to the star of the class. *)
Lemma lang_star_class (p : ascii -> bool) (s : list ascii) :
  forallb p s = true -> lang (Star (Class p)) s.
Proof.
  induction s as [| c s IH]; simpl; intro H.
  - constructor.
  - apply andb_true_iff in H. destruct H as [Hc Hs].
    exact (lang_star_app _ [c] s (lang_class p c Hc) (IH Hs)).
Qed.

End RegexFacts.

(** ** The schema *)

Lemma is_digit_phone_tail (c : ascii) :
  is_digit c = true -> is_phone_tail c = true.
Proof.
  unfold is_phone_tail. intros ->. now rewrite !orb_true_r.
Qed.

Lemma digits_phone_tail (l : list ascii) :
  forallb is_digit l = true -> forallb is_phone_tail l = true.
Proof.
  induction l as [| a l IH]; simpl; [reflexivity |].
  intro H. apply andb_true_iff in H. destruct H as [Ha Hl].
  now rewrite (is_digit_phone_tail a Ha), IH.
Qed.

(** A non-empty string of digits matches the phone pattern: the first digit
    is the prefix, the others the tail. *)
Lemma phone_regex_digits (s : string) :
  s <> "" ->
  forallb is_digit (list_ascii_of_string s) = true ->
  Regex.test phone_regex s = true.
Proof.
  intros Hne Hd. unfold Regex.test.
  destruct s as [| c s]; [congruence |]. simpl in *.
  apply andb_true_iff in Hd. destruct Hd as [Hc Hs].
  apply (RegexFacts.matches_lang phone_regex (c :: list_ascii_of_string s)).
  unfold phone_regex.
  apply (Regex.lang_seq _ _ [] (c :: _)); [apply Regex.lang_alt_r; constructor |].
  apply (Regex.lang_seq _ _ [] (c :: _)); [apply Regex.lang_alt_r; constructor |].
  apply (Regex.lang_seq _ _ [c] _).
  - unfold Regex.Range. simpl.
    apply (Regex.lang_seq _ _ [c] []).
    + apply (Regex.lang_seq _ _ [c] []); [now constructor | constructor].
    + apply Regex.lang_alt_r. constructor.
  - apply (Regex.lang_seq _ _ [] _); [apply Regex.lang_alt_r; constructor |].
    apply RegexFacts.lang_star_class. now apply digits_phone_tail.
Qed.

(** A digit followed by any number of hyphens matches the phone pattern. *)
Lemma phone_regex_hyphen_tail (d : ascii) (n : nat) :
  is_digit d = true ->
  Regex.test phone_regex
    (String d (string_of_list_ascii (repeat "-"%char n))) = true.
Proof.
  intro Hd. unfold Regex.test. simpl.
  rewrite list_ascii_of_string_of_list_ascii.
  apply (RegexFacts.matches_lang phone_regex (d :: repeat "-"%char n)).
  unfold phone_regex.
  apply (Regex.lang_seq _ _ [] (d :: _)); [apply Regex.lang_alt_r; constructor |].
  apply (Regex.lang_seq _ _ [] (d :: _)); [apply Regex.lang_alt_r; constructor |].
  apply (Regex.lang_seq _ _ [d] _).
  - unfold Regex.Range. simpl.
    apply (Regex.lang_seq _ _ [d] []).
    + apply (Regex.lang_seq _ _ [d] []); [now constructor | constructor].
    + apply Regex.lang_alt_r. constructor.
  - apply (Regex.lang_seq _ _ [] _); [apply Regex.lang_alt_r; constructor |].
    apply RegexFacts.lang_star_class.
    induction n as [| n IH]; simpl; [reflexivity | exact IH].
Qed.

(** Between 10 and 15 characters, a string that does not match the pattern
    is reported with the pattern's message. *)
Lemma phone_error_malformed (s : string) :
  (10 <= String.length s <= 15)%nat ->
  Regex.test phone_regex s = false ->
  phone_error s = Some msg_phone_regex.
Proof.
  intros [Hlo Hhi] Hre.
  unfold phone_error, phone_issues, check_min, check_max, check_regex.
  destruct (Nat.ltb_spec (String.length s) 10); [lia |].
  destruct (Nat.ltb_spec 15 (String.length s)); [lia |].
  now rewrite Hre.
Qed.

(** C7: a digit string shorter than 10 characters fails phone validation
    with the too-short message, one longer than 15 characters fails with
    the too-long message (and, being well-formed, with no other issue);
    the message for a malformed number is a third one, different from
    both. *)
Theorem C7_phone_length_messages (s : string) :
  forallb is_digit (list_ascii_of_string s) = true ->
  ((String.length s < 10)%nat -> phone_error s = Some msg_phone_min) /\
  ((15 < String.length s)%nat ->
     phone_error s = Some msg_phone_max /\ phone_issues s = [msg_phone_max]) /\
  msg_phone_min <> msg_phone_max /\
  msg_phone_regex <> msg_phone_min /\
  msg_phone_regex <> msg_phone_max /\
  phone_error "abcdefghij" = Some msg_phone_regex.
Proof.
  intro Hd. split; [| split].
  - intro Hlen. unfold phone_error, phone_issues, check_min.
    destruct (Nat.ltb_spec (String.length s) 10); [reflexivity | lia].
  - intro Hlen.
    assert (Hissues : phone_issues s = [msg_phone_max]).
    { unfold phone_issues, check_min, check_max, check_regex.
      destruct (Nat.ltb_spec (String.length s) 10); [lia |].
      destruct (Nat.ltb_spec 15 (String.length s)); [| lia].
      rewrite phone_regex_digits; [reflexivity | | exact Hd].
      intros ->. simpl in Hlen. lia. }
    unfold phone_error. now rewrite Hissues.
  - repeat split; discriminate.
Qed.

Lemma C7_phone_length_messages_witness :
  phone_error "12345" = Some msg_phone_min /\
  phone_error "1234567890123456" = Some msg_phone_max.
Proof.
  split.
  - apply (C7_phone_length_messages "12345"); [reflexivity | simpl; lia].
  - apply (C7_phone_length_messages "1234567890123456");
      [reflexivity | simpl; lia].
Defined.

(** C10: the stored value "123-456-78" has ten characters, eight of them
    digits, and passes phone validation: the length bounds count every
    character, and the pattern accepts a digit followed by any number of
    separators. *)
Theorem C10_short_number_passes :
  phone_onChange "123-456-78" = "123-456-78" /\
  String.length "123-456-78" = 10 /\
  List.length (filter is_digit (list_ascii_of_string "123-456-78")) = 8 /\
  phone_issues "123-456-78" = [] /\
  phone_error "123-456-78" = None /\
  (forall n : nat,
     Regex.test phone_regex
       (String "1" (string_of_list_ascii (repeat "-"%char n))) = true) /\
  phone_error "1---------" = None.
Proof.
  repeat split; try reflexivity.
  intro n. now apply phone_regex_hyphen_tail.
Qed.

(** ** The phone input *)

Lemma replace_class_global_chars (cls : ascii -> bool) (s : string) :
  list_ascii_of_string (replace_class_global cls s)
  = filter (fun c => negb (cls c)) (list_ascii_of_string s).
Proof.
  induction s as [| c s IH]; simpl; [reflexivity |].
  destruct (cls c); simpl; now rewrite IH.
Qed.

Lemma phone_onChange_chars (typed : string) :
  list_ascii_of_string (phone_onChange typed)
  = filter is_phone_char (list_ascii_of_string typed).
Proof.
  unfold phone_onChange. rewrite replace_class_global_chars.
  apply filter_ext. intro c. unfold not_phone_char. apply negb_involutive.
Qed.

Lemma forallb_filter_weaken (p q : ascii -> bool) (l : list ascii) :
  (forall c, p c = true -> q c = true) ->
  forallb q (filter p l) = true.
Proof.
  intro Hpq. induction l as [| a l IH]; simpl; [reflexivity |].
  destruct (p a) eqn:Hp; simpl; [| exact IH].
  now rewrite (Hpq a Hp), IH.
Qed.

(** A space, a parenthesis or a dot is not a phone character. *)
Lemma phone_char_not_separator (c : ascii) :
  is_phone_char c = true ->
  negb (is_char " " c || is_char "(" c || is_char ")" c || is_char "." c)
  = true.
Proof.
  unfold is_phone_char, is_digit, is_char, code.
  destruct c as [[] [] [] [] [] [] [] []]; vm_compute; congruence.
Qed.

(** C3, counterexample: typing "0905-436 83+24" stores "0905-43683+24";
    the hyphen and the inner plus sign are kept, so the stored value is not
    made of digits after an optional leading plus sign. *)
Lemma C3_hyphen_and_inner_plus_are_stored :
  phone_onChange "0905-436 83+24" = "0905-43683+24" /\
  forallb is_digit
    (tl (list_ascii_of_string (phone_onChange "0905-436 83+24"))) = false.
Proof. split; reflexivity. Qed.

(** C3, amended: the value stored for the phone field is the typed text
    with every character other than a digit, a plus sign or a hyphen
    removed; digits, plus signs and hyphens are kept wherever they stand,
    and spaces, parentheses and dots never reach the form state. Both
    versions of the page store the same value. *)
Theorem C3_stored_phone_chars
    (email_ok : string -> bool) (env : Env) (st : State) (typed : string) :
  let stored := phone (form (Page.step email_ok env st (Page.TypePhone typed))) in
  stored = phone_onChange typed /\
  phone (form (Stub.step email_ok st (Stub.TypePhone typed))) = stored /\
  list_ascii_of_string stored
    = filter is_phone_char (list_ascii_of_string typed) /\
  forallb is_phone_char (list_ascii_of_string stored) = true /\
  forallb
    (fun c =>
       negb (is_char " " c || is_char "(" c || is_char ")" c || is_char "." c))
    (list_ascii_of_string stored) = true.
Proof.
  simpl. rewrite phone_onChange_chars. repeat split.
  - apply forallb_filter_weaken. auto.
  - apply forallb_filter_weaken. apply phone_char_not_separator.
Qed.

(** ** The description field *)

Lemma description_error_nonempty (d : string) :
  description_error d = None <-> d <> "".
Proof.
  unfold description_error, description_issues, check_min.
  destruct d as [| c d]; simpl; split; congruence.
Qed.

(** C4, counterexample: "owner" is none of the three labels of the
    selection control, and passes the description check. *)
Lemma C4_other_string_passes :
  description_error "owner" = None /\
  ~ In "owner" (map item_value select_items).
Proof.
  split; [reflexivity |].
  simpl. intros [H | [H | [H | []]]]; discriminate.
Qed.

(** C4, amended: the description passes validation if and only if it is
    not the empty string; each label of the selection control passes, and
    so does every other non-empty string. *)
Theorem C4_description_valid_iff_nonempty :
  (forall d : string, description_error d = None <-> d <> "") /\
  (forall d : string,
     description_error d = Some msg_description <-> d = "") /\
  (forall i : SelectItem, description_error (item_value i) = None).
Proof.
  split; [exact description_error_nonempty | split].
  - intro d. unfold description_error, description_issues, check_min.
    destruct d; simpl; split; congruence.
  - intros []; reflexivity.
Qed.

(** ** [onSubmit] of [src/app/page.tsx] *)

Ltac run_handler :=
  unfold exec, Page.onSubmit, try_catch_finally, Page.onSubmit_try,
    Page.onSubmit_catch, Page.fetch, Page.json, bind, ret, throw,
    setLoading, setShowSuccess, form_reset, perform;
  simpl.

(** The state [onSubmit] leaves when the response is OK, its body is JSON
    and the body's [status] is not ['error']. *)
Lemma onSubmit_accepted
    (env : Env) (net : Request -> FetchOutcome) (values : FormValues)
    (st : State) (d : ResponseData) :
  net (Page.request env values) = Resolved {| ok := true; body := Json d |} ->
  Page.status_is_error d = false ->
  exec (Page.onSubmit env net values) st
  = {| loading := false; showSuccess := true; form := Page.resetValues;
       effects := effects st
                  ++ [Fetch (Page.request env values); LogSubscribed d] |}.
Proof.
  intros Hnet Hst. run_handler. rewrite Hnet. simpl. rewrite Hst. simpl.
  now rewrite <- app_assoc.
Qed.

(** The state [onSubmit] leaves when its [try] block throws. *)
Lemma onSubmit_caught
    (env : Env) (net : Request -> FetchOutcome) (values : FormValues)
    (st : State) (e : string) :
  fst (Page.onSubmit_try env net values st) = Throw e ->
  exec (Page.onSubmit env net values) st
  = {| loading := false; showSuccess := showSuccess st; form := form st;
       effects := effects st
                  ++ [Fetch (Page.request env values); LogError e;
                      Alert (String.append "Subscription failed: " e)] |}.
Proof.
  run_handler. unfold Page.onSubmit_try, Page.fetch, Page.json, bind, ret,
    throw, setLoading, setShowSuccess, form_reset, perform. simpl.
  destruct (net (Page.request env values)) as [e0 | [okr [e0 | d]]];
    simpl.
  - intro H. injection H as ->. now rewrite <- !app_assoc.
  - intro H. injection H as ->. now rewrite <- !app_assoc.
  - destruct (negb okr || Page.status_is_error d); simpl;
      [| discriminate].
    intro H. injection H as ->. now rewrite <- !app_assoc.
Qed.

(** Whatever the network answers, [onSubmit] completes with [loading]
    false: the [finally] block runs on every path. *)
Lemma Page_onSubmit_loading_false
    (env : Env) (net : Request -> FetchOutcome) (values : FormValues)
    (st : State) :
  loading (exec (Page.onSubmit env net values) st) = false.
Proof.
  run_handler.
  destruct (net (Page.request env values)) as [e0 | [okr [e0 | d]]];
    simpl; try reflexivity.
  destruct (negb okr || Page.status_is_error d); reflexivity.
Qed.

(** Every run of [onSubmit] issues exactly one call, the first thing it
    does. *)
Lemma Page_onSubmit_one_call
    (env : Env) (net : Request -> FetchOutcome) (values : FormValues)
    (st : State) :
  exists rest,
    effects (exec (Page.onSubmit env net values) st)
    = effects st ++ Fetch (Page.request env values) :: rest /\
    forallb (fun e => match e with Fetch _ => false | _ => true end) rest
    = true.
Proof.
  run_handler.
  destruct (net (Page.request env values)) as [e0 | [okr [e0 | d]]];
    simpl; try (eexists; rewrite <- !app_assoc; simpl; split; reflexivity).
  destruct (negb okr || Page.status_is_error d); simpl;
    eexists; rewrite <- !app_assoc; simpl; split; reflexivity.
Qed.

(** The spec's example submission, answered with success: the success
    state is shown and the description field holds "Select", so the form is
    not back at [defaultValues]. *)
Example example_success_leaves_select :
  let values := {| email := "a@b.com"; phone := "1234567890";
                   description := "I own a space to share" |} in
  let env := {| NEXT_PUBLIC_ZOHO_LIST_KEY := Some "list";
                ZOHO_OAUTH_TOKEN := None |} in
  let reply := Resolved {| ok := true;
                           body := Json {| status := Some "success";
                                           message := None |} |} in
  let st := exec (Page.onSubmit env (fun _ => reply) values)
              (set_form values initial) in
  showSuccess st = true /\
  form st = {| email := ""; phone := ""; description := "Select" |} /\
  form st <> defaultValues.
Proof. simpl. repeat split. discriminate. Qed.

(** C1, on the code: for every submission answered with an OK response
    whose JSON body does not carry the status 'error', [onSubmit] shows the
    success state and resets the form to the values it passes to
    [form.reset]: email "" and phone "", which are their page-load values,
    and description "Select", which is not the page-load value "". *)
Theorem C1_success_shows_and_resets
    (env : Env) (net : Request -> FetchOutcome) (values : FormValues)
    (st : State) (d : ResponseData) :
  net (Page.request env values) = Resolved {| ok := true; body := Json d |} ->
  Page.status_is_error d = false ->
  let st' := exec (Page.onSubmit env net values) st in
  showSuccess st' = true /\
  form st' = Page.resetValues /\
  email (form st') = email defaultValues /\
  phone (form st') = phone defaultValues /\
  description (form st') = "Select" /\
  description (form st') <> description defaultValues.
Proof.
  intros Hnet Hst st'. subst st'.
  rewrite (onSubmit_accepted env net values st d Hnet Hst). simpl.
  repeat split. discriminate.
Qed.

Lemma C1_success_shows_and_resets_witness :
  let values := {| email := "a@b.com"; phone := "1234567890";
                   description := "I own a space to share" |} in
  let env := {| NEXT_PUBLIC_ZOHO_LIST_KEY := Some "list";
                ZOHO_OAUTH_TOKEN := None |} in
  let d := {| status := Some "success"; message := None |} in
  let net := fun _ : Request => Resolved {| ok := true; body := Json d |} in
  let st' := exec (Page.onSubmit env net values) (set_form values initial) in
  showSuccess st' = true /\
  description (form st') <> description defaultValues.
Proof.
  intros values env d net st'.
  destruct (C1_success_shows_and_resets env net values
              (set_form values initial) d eq_refl eq_refl)
    as (Hshow & _ & _ & _ & _ & Hdesc).
  split; [exact Hshow | exact Hdesc].
Defined.

(** C6: when the response is not OK, or is OK with a body whose status is
    'error', [onSubmit] alerts the user with the error, keeps the three
    fields as they were, does not reset, and does not turn the success
    state on. *)
Theorem C6_failure_alerts_and_keeps_fields
    (env : Env) (net : Request -> FetchOutcome) (values : FormValues)
    (st : State) (r : Response) :
  net (Page.request env values) = Resolved r ->
  ok r = false \/ (exists d, body r = Json d /\ status d = Some "error") ->
  let st' := exec (Page.onSubmit env net values) st in
  (exists e,
     effects st'
     = effects st ++ [Fetch (Page.request env values); LogError e;
                      Alert (String.append "Subscription failed: " e)]) /\
  form st' = form st /\
  showSuccess st' = showSuccess st.
Proof.
  intros Hnet Hfail st'. subst st'.
  assert (Hc : exists e,
             fst (Page.onSubmit_try env net values st) = Throw e).
  { unfold Page.onSubmit_try, Page.fetch, Page.json, bind, ret, throw,
      setLoading, perform. simpl. rewrite Hnet.
    destruct r as [okr [e0 | d]]; simpl in *.
    - now exists e0.
    - destruct Hfail as [-> | (d' & Hd & Hs)].
      + simpl. eauto.
      + injection Hd as <-. unfold Page.status_is_error. rewrite Hs. simpl.
        rewrite orb_true_r. simpl. eauto. }
  destruct Hc as [e He].
  rewrite (onSubmit_caught env net values st e He). simpl.
  split; [now exists e | split; reflexivity].
Qed.

Lemma C6_failure_alerts_and_keeps_fields_witness :
  let values := {| email := "a@b.com"; phone := "1234567890";
                   description := "I own a space to share" |} in
  let env := {| NEXT_PUBLIC_ZOHO_LIST_KEY := Some "list";
                ZOHO_OAUTH_TOKEN := None |} in
  let r := {| ok := false;
              body := Json {| status := None;
                              message := Some "Invalid list key" |} |} in
  let r' := {| ok := true;
               body := Json {| status := Some "error";
                               message := Some "Contact already exists" |} |} in
  form (exec (Page.onSubmit env (fun _ => Resolved r) values)
          (set_form values initial)) = values /\
  form (exec (Page.onSubmit env (fun _ => Resolved r') values)
          (set_form values initial)) = values.
Proof.
  intros values env r r'. split.
  - apply (C6_failure_alerts_and_keeps_fields env (fun _ => Resolved r) values
             (set_form values initial) r);
      [reflexivity | left; reflexivity].
  - apply (C6_failure_alerts_and_keeps_fields env (fun _ => Resolved r') values
             (set_form values initial) r');
      [reflexivity | right; eexists; split; reflexivity].
Defined.

(** C8: the call carries an [Authorization] header exactly when
    [process.env.ZOHO_OAUTH_TOKEN] is configured (a non-empty string);
    without a token the headers are just the content type, and in both
    cases [onSubmit] issues the call. *)
Theorem C8_authorization_header_iff_token
    (env : Env) (net : Request -> FetchOutcome) (values : FormValues)
    (st : State) :
  let req := Page.request env values in
  (In "Authorization" (map fst (headers req))
   <-> exists t, ZOHO_OAUTH_TOKEN env = Some t /\ t <> "") /\
  headers req
  = ("Content-Type", "application/json")
    :: match ZOHO_OAUTH_TOKEN env with
       | Some t =>
           if String.eqb t "" then []
           else [("Authorization", String.append "Zoho-oauthtoken " t)]
       | None => []
       end /\
  In (Fetch req) (effects (exec (Page.onSubmit env net values) st)).
Proof.
  simpl. split; [| split].
  - unfold Page.request_headers, spread_if, truthy_opt, truthy. simpl.
    destruct (ZOHO_OAUTH_TOKEN env) as [t |]; simpl.
    + destruct (String.eqb_spec t ""); simpl.
      * split; [intros [H | []]; discriminate |].
        intros (t' & Ht & Hne). congruence.
      * split; [intros _; now exists t | auto].
    + split; [intros [H | []]; discriminate |].
      intros (t' & Ht & _). discriminate.
  - unfold Page.request_headers, spread_if, truthy_opt, truthy. simpl.
    destruct (ZOHO_OAUTH_TOKEN env) as [t |]; simpl; [| reflexivity].
    destruct (String.eqb t ""); reflexivity.
  - destruct (Page_onSubmit_one_call env net values st) as (rest & -> & _).
    apply in_or_app. right. now left.
Qed.

(** ** [onSubmit] of [src/unnamed/part_000] *)

Lemma Stub_onSubmit_state (values : FormValues) (st : State) :
  exec (Stub.onSubmit values) st
  = {| loading := true; showSuccess := true; form := Stub.resetValues;
       effects := effects st ++ [LogValues values] |}.
Proof. reflexivity. Qed.

(** No action on the stub page turns [loading] off. *)
Lemma Stub_step_keeps_loading
    (email_ok : string -> bool) (st : State) (ev : Stub.Event) :
  loading st = true -> loading (Stub.step email_ok st ev) = true.
Proof.
  intro H. destruct ev; simpl; try exact H.
  unfold button_disabled. now rewrite H.
Qed.

Lemma Stub_run_keeps_loading
    (email_ok : string -> bool) (evs : list Stub.Event) (st : State) :
  loading st = true -> loading (Stub.run email_ok st evs) = true.
Proof.
  revert st. induction evs as [| ev evs IH]; intros st H; simpl.
  - exact H.
  - apply IH. now apply Stub_step_keeps_loading.
Qed.

(** C9: in the stub version, once [onSubmit] has run, [loading] is true
    and stays true whatever the user does next; the submit control stays
    disabled, and pressing it changes nothing. *)
Theorem C9_stub_loading_stays_true
    (email_ok : string -> bool) (values : FormValues) (st : State)
    (evs : list Stub.Event) :
  let st' := Stub.run email_ok (exec (Stub.onSubmit values) st) evs in
  loading st' = true /\
  button_disabled st' = true /\
  Stub.step email_ok st' Stub.PressSubmit = st'.
Proof.
  intro st'.
  assert (H : loading st' = true).
  { apply Stub_run_keeps_loading. reflexivity. }
  split; [exact H | split; [exact H |]].
  simpl. unfold button_disabled. now rewrite H.
Qed.

(** C5, at the failing input: [onSubmit] of [src/app/page.tsx] completes
    with [loading] false whatever the network answers, but [onSubmit] of
    the stub completes with [loading] true, for the spec's example values
    as for all others. *)
Theorem C5_stub_completes_with_loading_true :
  let values := {| email := "a@b.com"; phone := "1234567890";
                   description := "I own a space to share" |} in
  loading (exec (Stub.onSubmit values) (set_form values initial)) = true /\
  (forall (v : FormValues) (st : State),
     loading (exec (Stub.onSubmit v) st) = true) /\
  (forall (env : Env) (net : Request -> FetchOutcome) (v : FormValues)
          (st : State),
     loading (exec (Page.onSubmit env net v) st) = false).
Proof.
  simpl. split; [reflexivity | split].
  - reflexivity.
  - apply Page_onSubmit_loading_false.
Qed.

(** ** Validation before [onSubmit] *)

(** [handleSubmit] runs [onSubmit] exactly when the resolver reports no
    failing field. *)
Lemma handleSubmit_valid
    (email_ok : string -> bool) (onValid : FormValues -> Handler unit)
    (st : State) :
  resolver email_ok (form st) = [] ->
  handleSubmit email_ok onValid st = onValid (form st) st.
Proof. unfold handleSubmit. now intros ->. Qed.

Lemma handleSubmit_invalid
    (email_ok : string -> bool) (onValid : FormValues -> Handler unit)
    (st : State) :
  resolver email_ok (form st) <> [] ->
  handleSubmit email_ok onValid st = (Normal tt, st).
Proof.
  unfold handleSubmit. destruct (resolver email_ok (form st)); congruence.
Qed.

(** Pressing the enabled submit control on valid values runs
    [onSubmit]. *)
Lemma Page_press_submit_valid
    (email_ok : string -> bool) (env : Env) (st : State)
    (reply : FetchOutcome) :
  loading st = false ->
  resolver email_ok (form st) = [] ->
  Page.step email_ok env st (Page.PressSubmit reply)
  = exec (Page.onSubmit env (fun _ => reply) (form st)) st.
Proof.
  intros Hl Hr. unfold Page.step, button_disabled. rewrite Hl.
  unfold exec. now rewrite (handleSubmit_valid _ _ _ Hr).
Qed.

(** An empty description is reported by the resolver, whatever the other
    fields hold: at page load the form cannot be submitted. *)
Lemma resolver_empty_description
    (email_ok : string -> bool) (e p : string) :
  In ("description", msg_description)
     (resolver email_ok {| email := e; phone := p; description := "" |}).
Proof.
  unfold resolver. apply in_or_app. right. apply in_or_app. right.
  now left.
Qed.

(** C2, at the failing input: after a first successful submission the
    description field holds "Select"; when the user fills in the email and
    the phone again and selects nothing, the description passes
    validation, the resolver reports no failing field, and pressing the
    submit control runs [onSubmit] and issues a second call, whose contact
    has no description. At page load, where the field holds "", the
    description fails validation. *)
Theorem C2_placeholder_after_reset_passes
    (email_ok : string -> bool) (env : Env) :
  email_ok "a@b.com" = true ->
  let d := {| status := Some "success"; message := None |} in
  let reply := Resolved {| ok := true; body := Json d |} in
  let first :=
    Page.run email_ok env initial
      [Page.TypeEmail "a@b.com"; Page.TypePhone "1234567890";
       Page.ChooseDescription OwnSpace; Page.PressSubmit reply] in
  let again :=
    Page.run email_ok env first
      [Page.TypeEmail "a@b.com"; Page.TypePhone "1234567890"] in
  description_error (description (form initial)) = Some msg_description /\
  form first = Page.resetValues /\
  form again = {| email := "a@b.com"; phone := "1234567890";
                  description := "Select" |} /\
  description_error (description (form again)) = None /\
  resolver email_ok (form again) = [] /\
  effects (Page.step email_ok env again (Page.PressSubmit reply))
  = effects again
    ++ [Fetch (Page.request env (form again)); LogSubscribed d] /\
  Page.contactInfo (form again)
  = [("Contact Email", "a@b.com"); ("Phone", "1234567890")].
Proof.
  intros Hok d reply first again.
  set (v := {| email := "a@b.com"; phone := "1234567890";
               description := "I own a space to share" |}).
  set (v' := {| email := "a@b.com"; phone := "1234567890";
                description := "Select" |}).
  assert (Hres : forall desc, desc <> "" ->
            resolver email_ok {| email := "a@b.com"; phone := "1234567890";
                                 description := desc |} = []).
  { intros desc Hd. unfold resolver, email_issues. simpl. rewrite Hok.
    destruct desc; [congruence | reflexivity]. }
  assert (Hfirst : first
            = exec (Page.onSubmit env (fun _ => reply) v) (set_form v initial)).
  { subst first. change (Page.run email_ok env initial _)
      with (Page.step email_ok env (set_form v initial)
              (Page.PressSubmit reply)).
    apply Page_press_submit_valid; [reflexivity |].
    apply Hres. discriminate. }
  rewrite (onSubmit_accepted env (fun _ => reply) v (set_form v initial) d
             eq_refl eq_refl) in Hfirst.
  assert (Hagain : again = set_form v' first).
  { subst again. rewrite Hfirst. reflexivity. }
  assert (Hform' : form again = v') by (now rewrite Hagain).
  split; [reflexivity |].
  split; [now rewrite Hfirst |].
  split; [exact Hform' |].
  split; [now rewrite Hform' |].
  split; [rewrite Hform'; apply Hres; discriminate |].
  split; [| now rewrite Hform'].
  rewrite Page_press_submit_valid.
  - now rewrite (onSubmit_accepted env (fun _ => reply) (form again) again d).
  - rewrite Hagain, Hfirst. reflexivity.
  - rewrite Hform'. apply Hres. discriminate.
Qed.

Lemma C2_placeholder_after_reset_passes_witness :
  resolver (fun s => existsb (is_char "@") (list_ascii_of_string s))
    {| email := "a@b.com"; phone := "1234567890"; description := "Select" |}
  = [].
Proof.
  pose proof
    (C2_placeholder_after_reset_passes
       (fun s => existsb (is_char "@") (list_ascii_of_string s))
       {| NEXT_PUBLIC_ZOHO_LIST_KEY := Some "list"; ZOHO_OAUTH_TOKEN := None |}
       eq_refl) as H.
  simpl in H. destruct H as (_ & _ & _ & _ & H & _). exact H.
Defined.

(** ** Reachable states *)

(** [onSubmit] either leaves the form's values alone or resets them. *)
Lemma Page_onSubmit_form
    (env : Env) (net : Request -> FetchOutcome) (values : FormValues)
    (st : State) :
  form (exec (Page.onSubmit env net values) st) = form st \/
  form (exec (Page.onSubmit env net values) st) = Page.resetValues.
Proof.
  run_handler.
  destruct (net (Page.request env values)) as [e0 | [okr [e0 | d]]];
    simpl; auto.
  destruct (negb okr || Page.status_is_error d); simpl; auto.
Qed.

(** In every state the page can reach, the stored phone value is made of
    digits, plus signs and hyphens only. *)
Lemma Page_stored_phone_invariant
    (email_ok : string -> bool) (env : Env) (evs : list Page.Event) :
  forallb is_phone_char
    (list_ascii_of_string (phone (form (Page.run email_ok env initial evs))))
  = true.
Proof.
  unfold Page.run.
  assert (H0 : forallb is_phone_char
                 (list_ascii_of_string (phone (form initial))) = true)
    by reflexivity.
  revert H0. generalize initial as st.
  induction evs as [| ev evs IH]; intros st Hst; simpl; [exact Hst |].
  apply IH. destruct ev as [text | text | item | reply]; simpl; try exact Hst.
  - rewrite phone_onChange_chars. apply forallb_filter_weaken. auto.
  - destruct (button_disabled st); [exact Hst |].
    unfold exec, handleSubmit.
    destruct (resolver email_ok (form st)); [| exact Hst].
    destruct (Page_onSubmit_form env (fun _ => reply) (form st) st) as [E | E];
      unfold exec in E; rewrite E; [exact Hst | reflexivity].
Qed.

(** * Further properties *)

(** ** What the phone pattern accepts *)

Module ClassFacts.
Import Regex.

Lemma lang_class_inv (p : ascii -> bool) (l : list ascii) :
  lang (Class p) l -> exists c, l = [c] /\ p c = true.
Proof. intro H. inversion H; subst. eauto. Qed.

Lemma lang_seq_inv (r1 r2 : regex) (l : list ascii) :
  lang (Seq r1 r2) l ->
  exists l1 l2, l = l1 ++ l2 /\ lang r1 l1 /\ lang r2 l2.
Proof. intro H. inversion H; subst. eauto. Qed.

Lemma lang_opt_class (p : ascii -> bool) (l : list ascii) :
  lang (Opt (Class p)) l <-> l = [] \/ exists c, l = [c] /\ p c = true.
Proof.
  unfold Opt. split.
  - intro H. inversion H as [| | | a b s K | a b s K | |]; subst.
    + right. now apply lang_class_inv.
    + left. now inversion K.
  - intros [-> | (c & -> & Hc)].
    + apply lang_alt_r. constructor.
    + apply lang_alt_l. now constructor.
Qed.

Lemma lang_star_class_inv (p : ascii -> bool) (l : list ascii) :
  lang (Star (Class p)) l -> forallb p l = true.
Proof.
  intro H. remember (Star (Class p)) as r eqn:Er. revert Er.
  induction H as [| | | | | | r' s1 s2 H1 _ H2 IH2]; intro Er;
    try discriminate.
  - reflexivity.
  - injection Er as ->. apply lang_class_inv in H1.
    destruct H1 as (c & -> & Hc). simpl. rewrite Hc. now apply IH2.
Qed.

Lemma lang_times_class (p : ascii -> bool) (n : nat) (l : list ascii) :
  lang (Times n (Class p)) l <-> List.length l = n /\ forallb p l = true.
Proof.
  revert l. induction n as [| n IH]; intro l; simpl.
  - split.
    + intro H. inversion H. now split.
    + intros [Hl _]. destruct l; [constructor | discriminate].
  - split.
    + intro H. apply lang_seq_inv in H.
      destruct H as (l1 & l2 & -> & H1 & H2).
      apply lang_class_inv in H1. destruct H1 as (c & -> & Hc).
      apply IH in H2. destruct H2 as [Hlen Hall]. simpl.
      now rewrite Hlen, Hc.
    + intros [Hlen Hall]. destruct l as [| c l]; [discriminate |].
      simpl in *. apply andb_true_iff in Hall. destruct Hall as [Hc Hall].
      apply (lang_seq _ _ [c] l); [now constructor |].
      apply IH. split; [now injection Hlen | exact Hall].
Qed.

Lemma lang_upto_class (p : ascii -> bool) (n : nat) (l : list ascii) :
  lang (UpTo n (Class p)) l <-> List.length l <= n /\ forallb p l = true.
Proof.
  revert l. induction n as [| n IH]; intro l; simpl.
  - split.
    + intro H. inversion H. now split.
    + intros [Hl _]. destruct l; [constructor | simpl in Hl; lia].
  - unfold Opt. split.
    + intro H. inversion H as [| | | a b s K | a b s K | |]; subst.
      * apply lang_seq_inv in K. destruct K as (l1 & l2 & -> & H1 & H2).
        apply lang_class_inv in H1. destruct H1 as (c & -> & Hc).
        apply IH in H2. destruct H2 as [Hlen Hall]. simpl.
        rewrite Hc. split; [lia | exact Hall].
      * inversion K. simpl. split; [lia | reflexivity].
    + intros [Hlen Hall]. destruct l as [| c l].
      * apply lang_alt_r. constructor.
      * simpl in *. apply andb_true_iff in Hall. destruct Hall as [Hc Hall].
        apply lang_alt_l. apply (lang_seq _ _ [c] l); [now constructor |].
        apply IH. split; [lia | exact Hall].
Qed.

Lemma lang_range_class (p : ascii -> bool) (lo hi : nat) (l : list ascii) :
  lo <= hi ->
  lang (Range lo hi (Class p)) l <->
  lo <= List.length l <= hi /\ forallb p l = true.
Proof.
  intro Hle. unfold Range. split.
  - intro H. apply lang_seq_inv in H. destruct H as (l1 & l2 & -> & H1 & H2).
    apply lang_times_class in H1. apply lang_upto_class in H2.
    destruct H1 as [E1 A1], H2 as [E2 A2].
    rewrite length_app, forallb_app, A1, A2. split; [lia | reflexivity].
  - intros [Hlen Hall].
    rewrite <- (firstn_skipn lo l) in Hall |- *.
    rewrite forallb_app in Hall. apply andb_true_iff in Hall.
    destruct Hall as [A1 A2].
    apply lang_seq.
    + apply lang_times_class. split; [| exact A1].
      rewrite length_firstn. lia.
    + apply lang_upto_class. split; [| exact A2].
      rewrite length_skipn. lia.
Qed.

End ClassFacts.

(** A string the phone pattern matches splits into the pattern's parts. *)
Lemma phone_regex_parts (l : list ascii) :
  Regex.lang phone_regex l ->
  exists plus open ds close tail,
    l = plus ++ open ++ ds ++ close ++ tail /\
    (plus = [] \/ plus = ["+"%char]) /\
    (open = [] \/ open = ["("%char]) /\
    1 <= List.length ds <= 4 /\ forallb is_digit ds = true /\
    (close = [] \/ close = [")"%char]) /\
    forallb is_phone_tail tail = true.
Proof.
  unfold phone_regex. intro H.
  assert (Hopt : forall x k,
            Regex.lang (Regex.Opt (Regex.Class (is_char x))) k ->
            k = [] \/ k = [x]).
  { intros x k Hk. apply ClassFacts.lang_opt_class in Hk.
    destruct Hk as [-> | (c & -> & Hc)]; [now left | right].
    unfold is_char in Hc. apply Ascii.eqb_eq in Hc. now subst. }
  apply ClassFacts.lang_seq_inv in H. destruct H as (plus & r1 & E1 & Hp & H).
  apply ClassFacts.lang_seq_inv in H. destruct H as (open & r2 & E2 & Ho & H).
  apply ClassFacts.lang_seq_inv in H. destruct H as (ds & r3 & E3 & Hd & H).
  apply ClassFacts.lang_seq_inv in H. destruct H as (close & tail & E4 & Hc & H).
  subst r1 r2 r3 l.
  apply Hopt in Hp. apply Hopt in Ho. apply Hopt in Hc.
  apply ClassFacts.lang_range_class in Hd; [| lia].
  apply ClassFacts.lang_star_class_inv in H.
  exists plus, open, ds, close, tail. tauto.
Qed.

(** X1: the phone pattern read as a grammar. A string matches it exactly
    when it is an optional plus sign, an optional opening parenthesis, one
    to four digits, an optional closing parenthesis, and then any number of
    digits, hyphens, dots, slashes and white-space characters. *)
Theorem X1_phone_regex_grammar (s : string) :
  Regex.test phone_regex s = true <->
  exists plus open ds close tail,
    list_ascii_of_string s = plus ++ open ++ ds ++ close ++ tail /\
    (plus = [] \/ plus = ["+"%char]) /\
    (open = [] \/ open = ["("%char]) /\
    1 <= List.length ds <= 4 /\ forallb is_digit ds = true /\
    (close = [] \/ close = [")"%char]) /\
    forallb is_phone_tail tail = true.
Proof.
  unfold Regex.test. rewrite RegexFacts.matches_lang. split.
  - apply phone_regex_parts.
  - intros (plus & open & ds & close & tail & -> & Hp & Ho & Hlen & Hd & Hc & Ht).
    assert (Hopt : forall x k, k = [] \/ k = [x] ->
              Regex.lang (Regex.Opt (Regex.Class (is_char x))) k).
    { intros x k Hk. apply ClassFacts.lang_opt_class.
      destruct Hk as [-> | ->]; [now left | right].
      exists x. split; [reflexivity | apply Ascii.eqb_refl]. }
    unfold phone_regex.
    apply Regex.lang_seq; [now apply Hopt |].
    apply Regex.lang_seq; [now apply Hopt |].
    apply Regex.lang_seq; [apply ClassFacts.lang_range_class; [lia | tauto] |].
    apply Regex.lang_seq; [now apply Hopt |].
    now apply RegexFacts.lang_star_class.
Qed.

(** ** What phone validation guarantees *)

Lemma chars_length (s : string) :
  List.length (list_ascii_of_string s) = String.length s.
Proof.
  induction s as [| c s IH]; simpl; [reflexivity | now rewrite IH].
Qed.

(** The phone field is valid exactly when its length is between 10 and 15
    and it matches the pattern. *)
Lemma phone_error_none_iff (s : string) :
  phone_error s = None <->
  10 <= String.length s <= 15 /\ Regex.test phone_regex s = true.
Proof.
  unfold phone_error, phone_issues, check_min, check_max, check_regex.
  destruct (Nat.ltb_spec (String.length s) 10);
    destruct (Nat.ltb_spec 15 (String.length s));
    destruct (Regex.test phone_regex s); simpl;
    split; try discriminate; try tauto; try (intros [? ?]; lia);
    try (intros [? ?]; discriminate).
Qed.

Lemma phone_tail_not_plus (c : ascii) :
  is_phone_tail c = true -> is_char "+" c = false.
Proof.
  unfold is_phone_tail, is_space, is_digit, is_char, code.
  destruct c as [[] [] [] [] [] [] [] []]; vm_compute; congruence.
Qed.

Lemma digit_not_plus (c : ascii) :
  is_digit c = true -> is_char "+" c = false.
Proof.
  intro H. apply phone_tail_not_plus. now apply is_digit_phone_tail.
Qed.

Lemma forallb_impl (p q : ascii -> bool) (l : list ascii) :
  (forall c, p c = true -> q c = true) ->
  forallb p l = true -> forallb q l = true.
Proof.
  intros Hpq. induction l as [| a l IH]; simpl; [reflexivity |].
  intro H. apply andb_true_iff in H. destruct H as [Ha Hl].
  now rewrite (Hpq a Ha), IH.
Qed.

(** X2: a phone value that passes validation has between 10 and 15
    characters, starts with a plus sign, an opening parenthesis or a
    digit, has a digit among its first three characters, holds no plus
    sign after its first character, and is made only of digits, the two
    parentheses, the plus sign, hyphens, dots, slashes and white space. *)
Theorem X2_valid_phone_shape (s : string) :
  phone_error s = None ->
  let l := list_ascii_of_string s in
  10 <= String.length s <= 15 /\
  existsb (fun c => is_char "+" c || is_char "(" c || is_digit c)
    (firstn 1 l) = true /\
  existsb is_digit (firstn 3 l) = true /\
  forallb (fun c => negb (is_char "+" c)) (tl l) = true /\
  forallb (fun c => is_char "+" c || is_char "(" c || is_char ")" c
                    || is_phone_tail c) l = true.
Proof.
  intros Hv l. apply phone_error_none_iff in Hv. destruct Hv as [Hlen Hre].
  split; [exact Hlen |].
  unfold Regex.test in Hre. apply RegexFacts.matches_lang in Hre.
  apply phone_regex_parts in Hre.
  destruct Hre as (plus & open & ds & close & tail & E & Hp & Ho & Hn & Hd & Hc & Ht).
  subst l. rewrite E. clear E Hlen.
  destruct ds as [| d ds]; [simpl in Hn; lia |].
  simpl in Hd. apply andb_true_iff in Hd. destruct Hd as [Hd Hds].
  assert (Hnp : forallb (fun c => negb (is_char "+" c))
                  (open ++ (d :: ds) ++ close ++ tail) = true).
  { rewrite !forallb_app. simpl. rewrite (digit_not_plus d Hd). simpl.
    rewrite (forallb_impl is_digit _ ds), (forallb_impl is_phone_tail _ tail);
      auto.
    - destruct Ho as [-> | ->], Hc as [-> | ->]; reflexivity.
    - intros c K. now rewrite (phone_tail_not_plus c K).
    - intros c K. now rewrite (digit_not_plus c K). }
  assert (Hall : forallb (fun c => is_char "+" c || is_char "(" c
                                   || is_char ")" c || is_phone_tail c)
                   (plus ++ open ++ (d :: ds) ++ close ++ tail) = true).
  { rewrite !forallb_app. simpl.
    rewrite (is_digit_phone_tail d Hd), !orb_true_r. simpl.
    rewrite (forallb_impl is_digit _ ds), (forallb_impl is_phone_tail _ tail);
      auto.
    - destruct Hp as [-> | ->], Ho as [-> | ->], Hc as [-> | ->]; reflexivity.
    - intros c K. now rewrite K, !orb_true_r.
    - intros c K. now rewrite (is_digit_phone_tail c K), !orb_true_r. }
  split; [| split; [| split; [| exact Hall]]].
  - destruct Hp as [-> | ->], Ho as [-> | ->]; simpl; try reflexivity.
    now rewrite Hd, !orb_true_r.
  - destruct Hp as [-> | ->], Ho as [-> | ->]; simpl; rewrite Hd;
      now rewrite ?orb_true_r.
  - destruct Hp as [-> | ->]; simpl.
    + destruct Ho as [-> | ->]; simpl in *.
      * apply andb_true_iff in Hnp. tauto.
      * exact Hnp.
    + exact Hnp.
Qed.

Lemma X2_valid_phone_shape_witness :
  forallb (fun c => negb (is_char "+" c))
    (tl (list_ascii_of_string "+(234) 567-8901")) = true.
Proof.
  apply (X2_valid_phone_shape "+(234) 567-8901"). reflexivity.
Defined.

(** X3: a string of digits passes phone validation exactly when it has
    between 10 and 15 digits. *)
Theorem X3_digit_string_valid_iff (s : string) :
  forallb is_digit (list_ascii_of_string s) = true ->
  (phone_error s = None <-> 10 <= String.length s <= 15).
Proof.
  intro Hd. rewrite phone_error_none_iff. split; [tauto |].
  intro Hlen. split; [exact Hlen |].
  apply phone_regex_digits; [| exact Hd].
  intros ->. simpl in Hlen. lia.
Qed.

Lemma X3_digit_string_valid_iff_witness :
  phone_error "09054368324" = None.
Proof.
  apply (X3_digit_string_valid_iff "09054368324"); [reflexivity | simpl; lia].
Defined.

(** ** The phone input's normalisation *)

Lemma string_of_chars (s : string) :
  string_of_list_ascii (list_ascii_of_string s) = s.
Proof. apply string_of_list_ascii_of_string. Qed.

Lemma chars_app (a b : string) :
  list_ascii_of_string (String.append a b)
  = list_ascii_of_string a ++ list_ascii_of_string b.
Proof.
  induction a as [| c a IH]; simpl; [reflexivity | now rewrite IH].
Qed.

Lemma chars_inj (a b : string) :
  list_ascii_of_string a = list_ascii_of_string b -> a = b.
Proof.
  intro H. rewrite <- (string_of_chars a), <- (string_of_chars b).
  now rewrite H.
Qed.

Lemma filter_id_iff (p : ascii -> bool) (l : list ascii) :
  filter p l = l <-> forallb p l = true.
Proof.
  induction l as [| a l IH]; simpl; [tauto |].
  destruct (p a) eqn:Hp; simpl.
  - rewrite <- IH. split; [intro H; now injection H | now intros ->].
  - split; [| discriminate]. intro H.
    assert (K : List.length (filter p l) <= List.length l)
      by apply filter_length_le.
    rewrite H in K. simpl in K. lia.
Qed.

(** X4: normalising the phone input is idempotent and works character by
    character: the normal form of a concatenation is the concatenation of
    the normal forms, and a text is its own normal form exactly when it is
    made of digits, plus signs and hyphens only. *)
Theorem X4_phone_onChange_normal_form (s t : string) :
  phone_onChange (phone_onChange s) = phone_onChange s /\
  phone_onChange (String.append s t)
  = String.append (phone_onChange s) (phone_onChange t) /\
  (phone_onChange s = s
   <-> forallb is_phone_char (list_ascii_of_string s) = true).
Proof.
  split; [| split].
  - apply chars_inj. rewrite !phone_onChange_chars.
    apply filter_id_iff. apply forallb_filter_weaken. auto.
  - apply chars_inj.
    now rewrite chars_app, !phone_onChange_chars, chars_app, filter_app.
  - rewrite <- filter_id_iff, <- phone_onChange_chars. split.
    + now intros ->.
    + apply chars_inj.
Qed.

(** X5: normalising the phone input never loses or reorders a digit and
    never makes the text longer. *)
Theorem X5_phone_onChange_keeps_digits (s : string) :
  filter is_digit (list_ascii_of_string (phone_onChange s))
  = filter is_digit (list_ascii_of_string s) /\
  String.length (phone_onChange s) <= String.length s.
Proof.
  split.
  - rewrite phone_onChange_chars.
    induction (list_ascii_of_string s) as [| a l IH]; simpl; [reflexivity |].
    unfold is_phone_char at 1.
    destruct (is_digit a) eqn:Hd; simpl.
    + rewrite Hd. now rewrite IH.
    + destruct (is_char "+" a || is_char "-" a); simpl;
        [rewrite Hd |]; exact IH.
  - rewrite <- !chars_length, phone_onChange_chars. apply filter_length_le.
Qed.

Lemma phone_char_tail (c : ascii) :
  is_phone_char c = true -> is_phone_tail c = true ->
  is_digit c || is_char "-" c = true.
Proof.
  unfold is_phone_char, is_phone_tail, is_space, is_digit, is_char, code.
  destruct c as [[] [] [] [] [] [] [] []]; vm_compute; congruence.
Qed.

(** X6: when the value stored by the phone input passes validation, it is
    a digit followed by digits and hyphens, possibly after one leading
    plus sign; it has between 10 and 15 characters. *)
Theorem X6_stored_valid_phone (typed : string) :
  phone_error (phone_onChange typed) = None ->
  let stored := phone_onChange typed in
  10 <= String.length stored <= 15 /\
  exists d rest,
    is_digit d = true /\
    forallb (fun c => is_digit c || is_char "-" c) rest = true /\
    (list_ascii_of_string stored = d :: rest \/
     list_ascii_of_string stored = "+"%char :: d :: rest).
Proof.
  intros Hv stored. apply phone_error_none_iff in Hv.
  destruct Hv as [Hlen Hre]. split; [exact Hlen |].
  assert (Hpc : forallb is_phone_char (list_ascii_of_string stored) = true).
  { subst stored. rewrite phone_onChange_chars.
    apply forallb_filter_weaken. auto. }
  unfold Regex.test in Hre. apply RegexFacts.matches_lang in Hre.
  apply phone_regex_parts in Hre. fold stored in Hre.
  destruct Hre as (plus & open & ds & close & tail & E & Hp & Ho & Hn & Hd & Hc & Ht).
  rewrite E in Hpc |- *. rewrite !forallb_app in Hpc.
  repeat (apply andb_true_iff in Hpc; destruct Hpc as [? Hpc]).
  destruct Ho as [-> | ->]; [| discriminate].
  destruct Hc as [-> | ->]; [| discriminate].
  destruct ds as [| d ds]; [simpl in Hn; lia |].
  simpl in Hd. apply andb_true_iff in Hd. destruct Hd as [Hd Hds].
  exists d, (ds ++ tail). split; [exact Hd | split].
  - rewrite forallb_app. apply andb_true_iff. split.
    + apply (forallb_impl is_digit); [| exact Hds].
      intros c K. now rewrite K.
    + clear -Hpc Ht. induction tail as [| a tail IH]; simpl in *;
        [reflexivity |].
      apply andb_true_iff in Hpc, Ht. destruct Hpc as [P1 P2], Ht as [T1 T2].
      now rewrite (phone_char_tail a P1 T1), IH.
  - destruct Hp as [-> | ->]; [left | right]; reflexivity.
Qed.

Lemma X6_stored_valid_phone_witness :
  10 <= String.length (phone_onChange "+234 (905) 436-8324") <= 15.
Proof.
  apply (X6_stored_valid_phone "+234 (905) 436-8324"). reflexivity.
Defined.

(** ** The resolver and the contact record *)

Lemma first_issue_none (issues : list string) :
  first_issue issues = None <-> issues = [].
Proof. destruct issues; simpl; split; congruence. Qed.

Lemma field_error_nil (name : string) (issues : list string) :
  field_error name issues = [] <-> issues = [].
Proof.
  unfold field_error. destruct issues; simpl; split; congruence.
Qed.

Lemma resolver_nil_iff (email_ok : string -> bool) (v : FormValues) :
  resolver email_ok v = [] <->
  email_ok (email v) = true /\ phone_error (phone v) = None /\
  description v <> "".
Proof.
  unfold resolver. rewrite <- description_error_nonempty.
  unfold phone_error, description_error. rewrite !first_issue_none.
  split.
  - intro H. apply app_eq_nil in H. destruct H as [H1 H2].
    apply app_eq_nil in H2. destruct H2 as [H2 H3].
    apply field_error_nil in H1, H2, H3.
    unfold email_issues, check in H1.
    destruct (email_ok (email v)); [tauto | discriminate].
  - intros (H1 & H2 & H3). unfold email_issues. rewrite H1, H2, H3.
    reflexivity.
Qed.

(** X7: the resolver reports no failing field exactly when the email
    passes the email check, the phone passes its three checks and the
    description is not empty; it never reports a field twice, so at most
    three messages are shown. *)
Theorem X7_resolver_reports (email_ok : string -> bool) (v : FormValues) :
  (resolver email_ok v = [] <->
   email_ok (email v) = true /\ phone_error (phone v) = None /\
   description v <> "") /\
  NoDup (map fst (resolver email_ok v)) /\
  List.length (resolver email_ok v) <= 3.
Proof.
  split; [apply resolver_nil_iff |].
  unfold resolver, field_error.
  destruct (first_issue (email_issues email_ok (email v)));
    destruct (first_issue (phone_issues (phone v)));
    destruct (first_issue (description_issues (description v)));
    simpl; (split; [| lia]);
    repeat constructor; simpl; intuition discriminate.
Qed.

(** X8: for values that passed validation the contact record always
    starts with the email and the phone, in this order; the description
    follows unless it is "Select". The record never has more than these
    three members. *)
Theorem X8_contactInfo_of_valid_values
    (email_ok : string -> bool) (v : FormValues) :
  resolver email_ok v = [] ->
  Page.contactInfo v
  = [("Contact Email", email v); ("Phone", phone v)]
    ++ (if String.eqb (description v) "Select" then []
        else [("Description", description v)]).
Proof.
  intro H. apply resolver_nil_iff in H. destruct H as (_ & Hp & _).
  apply phone_error_none_iff in Hp. destruct Hp as [Hlen _].
  unfold Page.contactInfo, spread_if, truthy.
  destruct (phone v) as [| c p]; [simpl in Hlen; lia |]. simpl.
  destruct (String.eqb (description v) "Select"); reflexivity.
Qed.

Lemma X8_contactInfo_of_valid_values_witness :
  Page.contactInfo {| email := "a@b.com"; phone := "1234567890";
                      description := "I own a space to share" |}
  = [("Contact Email", "a@b.com"); ("Phone", "1234567890");
     ("Description", "I own a space to share")].
Proof.
  apply (X8_contactInfo_of_valid_values
           (fun s => existsb (is_char "@") (list_ascii_of_string s))).
  reflexivity.
Defined.

(** ** The outcomes of [onSubmit] in [src/app/page.tsx] *)


(** A failing JSON response makes the [try] block throw the body's
    message, or 'Subscription failed' when the message is missing or
    empty. *)
Lemma onSubmit_try_throws_message
    (env : Env) (net : Request -> FetchOutcome) (values : FormValues)
    (st : State) (okr : bool) (d : ResponseData) :
  net (Page.request env values) = Resolved {| ok := okr; body := Json d |} ->
  negb okr || Page.status_is_error d = true ->
  fst (Page.onSubmit_try env net values st)
  = Throw (or_else (message d) "Subscription failed").
Proof.
  intros Hnet Hf.
  unfold Page.onSubmit_try, Page.fetch, Page.json, bind, ret, throw,
    setLoading, perform. simpl. rewrite Hnet. simpl. now rewrite Hf.
Qed.



(** X11: a call that is rejected, and a response whose body cannot be read
    as JSON, are failures whatever the HTTP status: even with an OK
    status the success line is not turned on and the form is not reset;
    the exception's message is alerted. *)
Theorem X11_unreadable_answer_is_failure
    (env : Env) (net : Request -> FetchOutcome) (values : FormValues)
    (st : State) (e : string) :
  net (Page.request env values) = Rejected e \/
  (exists okr,
     net (Page.request env values)
     = Resolved {| ok := okr; body := Unreadable e |}) ->
  exec (Page.onSubmit env net values) st
  = {| loading := false; showSuccess := showSuccess st; form := form st;
       effects := effects st
                  ++ [Fetch (Page.request env values); LogError e;
                      Alert (String.append "Subscription failed: " e)] |}.
Proof.
  intro H. apply onSubmit_caught.
  unfold Page.onSubmit_try, Page.fetch, Page.json, bind, ret, throw,
    setLoading, perform. simpl.
  destruct H as [-> | [okr ->]]; reflexivity.
Qed.

Lemma X11_unreadable_answer_is_failure_witness :
  let values := {| email := "a@b.com"; phone := "1234567890";
                   description := "I own a space to share" |} in
  let env := {| NEXT_PUBLIC_ZOHO_LIST_KEY := Some "list";
                ZOHO_OAUTH_TOKEN := None |} in
  let net := fun _ : Request =>
               Resolved {| ok := true;
                           body := Unreadable "Unexpected token <" |} in
  showSuccess (exec (Page.onSubmit env net values) (set_form values initial))
  = false.
Proof.
  intros values env net.
  rewrite (X11_unreadable_answer_is_failure env net values
             (set_form values initial) "Unexpected token <").
  - reflexivity.
  - right. exists true. reflexivity.
Defined.

(** [onSubmit] either shows the success line and resets the form, or
    leaves both as they were. *)
Lemma Page_onSubmit_success_or_unchanged
    (env : Env) (net : Request -> FetchOutcome) (values : FormValues)
    (st : State) :
  (showSuccess (exec (Page.onSubmit env net values) st) = true /\
   form (exec (Page.onSubmit env net values) st) = Page.resetValues) \/
  (showSuccess (exec (Page.onSubmit env net values) st) = showSuccess st /\
   form (exec (Page.onSubmit env net values) st) = form st).
Proof.
  run_handler.
  destruct (net (Page.request env values)) as [e0 | [okr [e0 | d]]];
    simpl; auto.
  destruct (negb okr || Page.status_is_error d); simpl; auto.
Qed.

(** ** Sequences of user actions on [src/app/page.tsx] *)


(** Pressing the submit control on values that fail validation changes
    nothing. *)
Lemma Page_press_submit_invalid
    (email_ok : string -> bool) (env : Env) (st : State)
    (reply : FetchOutcome) :
  resolver email_ok (form st) <> [] ->
  Page.step email_ok env st (Page.PressSubmit reply) = st.
Proof.
  intro H. unfold Page.step. destruct (button_disabled st); [reflexivity |].
  unfold exec. now rewrite (handleSubmit_invalid _ _ _ H).
Qed.



(** X13: after a failed submission the form is still filled in, and
    pressing the submit control again sends the same request a second
    time. *)
Theorem X13_retry_after_failure
    (email_ok : string -> bool) (env : Env) (st : State)
    (okr : bool) (d : ResponseData) (reply : FetchOutcome) :
  loading st = false ->
  resolver email_ok (form st) = [] ->
  okr = false \/ status d = Some "error" ->
  let req := Page.request env (form st) in
  let failed := Resolved {| ok := okr; body := Json d |} in
  let st1 := Page.step email_ok env st (Page.PressSubmit failed) in
  let st2 := Page.step email_ok env st1 (Page.PressSubmit reply) in
  form st1 = form st /\
  exists e rest,
    effects st2
    = effects st
      ++ [Fetch req; LogError e;
          Alert (String.append "Subscription failed: " e)]
      ++ Fetch req :: rest.
Proof.
  intros Hl Hr Hf req failed st1 st2.
  assert (Hc : negb okr || Page.status_is_error d = true).
  { destruct Hf as [-> | Hs]; [reflexivity |].
    unfold Page.status_is_error. rewrite Hs. simpl. apply orb_true_r. }
  assert (E1 : st1 = {| loading := false; showSuccess := showSuccess st;
                        form := form st;
                        effects := effects st
                          ++ [Fetch req; LogError
                                (or_else (message d) "Subscription failed");
                              Alert (String.append "Subscription failed: "
                                (or_else (message d) "Subscription failed"))]
                     |}).
  { subst st1. rewrite (Page_press_submit_valid _ _ _ _ Hl Hr).
    apply onSubmit_caught.
    now apply onSubmit_try_throws_message with (okr := okr). }
  split; [now rewrite E1 |].
  exists (or_else (message d) "Subscription failed").
  destruct (Page_onSubmit_one_call env (fun _ => reply) (form st1) st1)
    as (rest & Heff & _).
  exists rest. subst st2.
  rewrite Page_press_submit_valid.
  - rewrite Heff. rewrite E1. simpl. now rewrite <- app_assoc.
  - now rewrite E1.
  - now rewrite E1.
Qed.

Lemma X13_retry_after_failure_witness :
  let values := {| email := "a@b.com"; phone := "1234567890";
                   description := "I own a space to share" |} in
  let env := {| NEXT_PUBLIC_ZOHO_LIST_KEY := Some "list";
                ZOHO_OAUTH_TOKEN := None |} in
  let failed := Resolved {| ok := false;
                            body := Json {| status := None;
                                            message := None |} |} in
  form (Page.step (fun _ => true) env (set_form values initial)
          (Page.PressSubmit failed)) = values.
Proof.
  intros values env failed.
  apply (X13_retry_after_failure (fun _ => true) env
           (set_form values initial) false
           {| status := None; message := None |} failed);
    [reflexivity | reflexivity | left; reflexivity].
Defined.

Lemma no_fetch_in (rest : list Effect) (req : Request) :
  forallb (fun e => match e with Fetch _ => false | _ => true end) rest
  = true ->
  ~ In (Fetch req) rest.
Proof.
  intros H Hin. rewrite forallb_forall in H. specialize (H _ Hin).
  discriminate.
Qed.

(** What pressing the submit control does to the effects: nothing, or one
    call for the form's validated values followed by effects that are not
    calls. *)
Lemma Page_press_submit_effects
    (email_ok : string -> bool) (env : Env) (st : State)
    (reply : FetchOutcome) :
  Page.step email_ok env st (Page.PressSubmit reply) = st \/
  (resolver email_ok (form st) = [] /\
   exists rest,
     effects (Page.step email_ok env st (Page.PressSubmit reply))
     = effects st ++ Fetch (Page.request env (form st)) :: rest /\
     forallb (fun e => match e with Fetch _ => false | _ => true end) rest
     = true).
Proof.
  destruct (loading st) eqn:Hl.
  - left. unfold Page.step, button_disabled. now rewrite Hl.
  - destruct (resolver email_ok (form st)) eqn:Hr.
    + right. split; [reflexivity |].
      rewrite (Page_press_submit_valid _ _ _ _ Hl Hr).
      apply Page_onSubmit_one_call.
    + left. apply Page_press_submit_invalid. rewrite Hr. discriminate.
Qed.

(** X14: whatever the user does from page load, every call the page makes
    is the request built from values that passed validation: values that
    fail validation are never sent. *)
Theorem X14_only_valid_values_are_sent
    (email_ok : string -> bool) (env : Env) (evs : list Page.Event)
    (req : Request) :
  In (Fetch req) (effects (Page.run email_ok env initial evs)) ->
  exists v, req = Page.request env v /\ resolver email_ok v = [].
Proof.
  unfold Page.run.
  assert (H0 : forall r, In (Fetch r) (effects initial) ->
                 exists v, r = Page.request env v /\ resolver email_ok v = [])
    by (intros r []).
  revert H0. generalize initial as st. revert req.
  induction evs as [| ev evs IH]; intros req st Hst; simpl; [apply Hst |].
  apply IH. intros r Hin.
  destruct ev as [text | text | item | reply]; simpl in Hin;
    try (now apply Hst).
  destruct (Page_press_submit_effects email_ok env st reply)
    as [E | (Hr & rest & E & Hrest)].
  - simpl in E. rewrite E in Hin. now apply Hst.
  - simpl in E. rewrite E in Hin. apply in_app_or in Hin.
    destruct Hin as [Hin | [Hin | Hin]].
    + now apply Hst.
    + injection Hin as <-. eauto.
    + now apply no_fetch_in in Hin.
Qed.

Lemma X14_only_valid_values_are_sent_witness :
  let env := {| NEXT_PUBLIC_ZOHO_LIST_KEY := Some "list";
                ZOHO_OAUTH_TOKEN := None |} in
  let values := {| email := "a@b.com"; phone := "1234567890";
                   description := "I own a space to share" |} in
  exists v, Page.request env values = Page.request env v /\
            resolver (fun _ => true) v = [].
Proof.
  intros env values.
  apply (X14_only_valid_values_are_sent (fun _ => true) env
           [Page.TypeEmail "a@b.com"; Page.TypePhone "1234567890";
            Page.ChooseDescription OwnSpace;
            Page.PressSubmit (Rejected "Failed to fetch")]).
  simpl. now left.
Defined.

(** X15: the page makes at most one call for each press of the submit
    control: no retry, no second attempt. *)
Theorem X15_one_call_per_press
    (email_ok : string -> bool) (env : Env) (evs : list Page.Event) :
  List.length
    (filter (fun e => match e with Fetch _ => true | _ => false end)
       (effects (Page.run email_ok env initial evs)))
  <= List.length
       (filter (fun ev => match ev with
                          | Page.PressSubmit _ => true
                          | _ => false
                          end) evs).
Proof.
  unfold Page.run.
  set (isF := fun e => match e with Fetch _ => true | _ => false end).
  set (isP := fun ev => match ev with
                        | Page.PressSubmit _ => true
                        | _ => false
                        end).
  assert (G : forall evs st,
            List.length (filter isF
              (effects (fold_left (Page.step email_ok env) evs st)))
            <= List.length (filter isF (effects st))
               + List.length (filter isP evs)).
  { clear evs. induction evs as [| ev evs IH]; intro st; [simpl; lia |].
    cbn [fold_left].
    apply (Nat.le_trans _ _ _ (IH (Page.step email_ok env st ev))).
    destruct ev as [text | text | item | reply];
      try (simpl; lia).
    destruct (Page_press_submit_effects email_ok env st reply)
      as [E | (_ & rest & E & Hrest)]; rewrite E.
    - simpl. lia.
    - rewrite filter_app, length_app.
      assert (Hnil : filter isF rest = []).
      { clear -Hrest. induction rest as [| a rest IHr]; [reflexivity |].
        simpl in *. apply andb_true_iff in Hrest. destruct Hrest as [Ha Hr].
        destruct a; simpl in *; try discriminate; now apply IHr. }
      simpl. rewrite Hnil. simpl. lia. }
  specialize (G evs initial). simpl in G. exact G.
Qed.

Lemma Page_onSubmit_showSuccess
    (env : Env) (net : Request -> FetchOutcome) (values : FormValues)
    (st : State) :
  showSuccess st = true ->
  showSuccess (exec (Page.onSubmit env net values) st) = true.
Proof.
  intro H. run_handler.
  destruct (net (Page.request env values)) as [e0 | [okr [e0 | d]]];
    simpl; try exact H.
  destruct (negb okr || Page.status_is_error d); simpl;
    [exact H | reflexivity].
Qed.

(** X16: once the success line is shown it stays shown, whatever the user
    does next: nothing on the page turns it off, not even a later failed
    submission. *)
Theorem X16_success_line_stays
    (email_ok : string -> bool) (env : Env) (evs : list Page.Event)
    (st : State) :
  showSuccess st = true ->
  showSuccess (Page.run email_ok env st evs) = true.
Proof.
  unfold Page.run. revert st.
  induction evs as [| ev evs IH]; intros st H; simpl; [exact H |].
  apply IH. destruct ev as [text | text | item | reply]; simpl; try exact H.
  destruct (button_disabled st); [exact H |].
  unfold exec, handleSubmit.
  destruct (resolver email_ok (form st)); [| exact H].
  now apply Page_onSubmit_showSuccess.
Qed.

Lemma X16_success_line_stays_witness :
  let env := {| NEXT_PUBLIC_ZOHO_LIST_KEY := Some "list";
                ZOHO_OAUTH_TOKEN := None |} in
  let shown := {| loading := false; showSuccess := true;
                  form := Page.resetValues; effects := [] |} in
  showSuccess
    (Page.run (fun _ => true) env shown
       [Page.TypeEmail "a@b.com"; Page.TypePhone "1234567890";
        Page.PressSubmit (Rejected "Failed to fetch")]) = true.
Proof.
  intros env shown.
  apply (X16_success_line_stays (fun _ => true) env). reflexivity.
Defined.

(** ** Sequences of user actions on the stub page *)

(** X17: whatever the user does on the stub page from page load, either no
    submission has run yet (nothing logged, the control enabled, no
    success line), or exactly one has: the values logged once passed
    validation, the control is disabled and the success line is shown. The
    stub never makes a call and never alerts. *)
Theorem X17_stub_single_submission
    (email_ok : string -> bool) (evs : list Stub.Event) :
  let st := Stub.run email_ok initial evs in
  (effects st = [] /\ loading st = false /\ showSuccess st = false) \/
  (exists v, effects st = [LogValues v] /\ resolver email_ok v = [] /\
             loading st = true /\ showSuccess st = true).
Proof.
  unfold Stub.run.
  assert (H0 : (effects initial = [] /\ loading initial = false
                /\ showSuccess initial = false) \/
               (exists v, effects initial = [LogValues v]
                          /\ resolver email_ok v = []
                          /\ loading initial = true
                          /\ showSuccess initial = true))
    by (left; repeat split).
  revert H0. generalize initial as st.
  induction evs as [| ev evs IH]; intros st Hst; simpl; [exact Hst |].
  apply IH. destruct ev as [text | text | item |]; simpl; try exact Hst.
  destruct Hst as [(He & Hl & Hs) | (v & He & Hv & Hl & Hs)].
  - unfold button_disabled. rewrite Hl. unfold exec, handleSubmit.
    destruct (resolver email_ok (form st)) eqn:Hr; simpl.
    + right. exists (form st). rewrite He. repeat split. exact Hr.
    + left. repeat split; assumption.
  - unfold button_disabled. rewrite Hl. right. exists v.
    repeat split; assumption.
Qed.

(** ** The URL passed to [fetch] *)

Lemma append_assoc (a b c : string) :
  String.append (String.append a b) c = String.append a (String.append b c).
Proof.
  induction a as [| x a IH]; simpl; [reflexivity | now rewrite IH].
Qed.

Lemma encodeURIComponent_app (a b : string) :
  Url.encodeURIComponent (String.append a b)
  = String.append (Url.encodeURIComponent a) (Url.encodeURIComponent b).
Proof.
  induction a as [| x a IH]; simpl; [reflexivity |].
  now rewrite IH, append_assoc.
Qed.

Lemma form_urlencode_app (a b : string) :
  Url.form_urlencode (String.append a b)
  = String.append (Url.form_urlencode a) (Url.form_urlencode b).
Proof.
  induction a as [| x a IH]; simpl; [reflexivity |].
  now rewrite IH, append_assoc.
Qed.

(** What the serialiser writes for one character is made of letters,
    digits, [* - . _], [%] and [+]. *)
Lemma form_piece_safe (c : ascii) :
  forallb (fun x => Url.form_unreserved x || is_char "%" x || is_char "+" x)
    (list_ascii_of_string
       (if is_char " " c then "+"
        else if Url.form_unreserved c then String c ""
        else Url.percent_encode c)) = true.
Proof.
  destruct c as [[] [] [] [] [] [] [] []]; vm_compute; reflexivity.
Qed.

Lemma form_urlencode_safe (s : string) :
  forallb (fun x => Url.form_unreserved x || is_char "%" x || is_char "+" x)
    (list_ascii_of_string (Url.form_urlencode s)) = true.
Proof.
  induction s as [| c s IH]; simpl; [reflexivity |].
  rewrite chars_app, forallb_app, IH, andb_true_r.
  apply form_piece_safe.
Qed.

Lemma count_occ_unsafe (l : list ascii) (c : ascii) :
  forallb (fun x => Url.form_unreserved x || is_char "%" x || is_char "+" x)
    l = true ->
  Url.form_unreserved c || is_char "%" c || is_char "+" c = false ->
  count_occ ascii_dec l c = 0.
Proof.
  intros Hl Hc. induction l as [| a l IH]; simpl in *; [reflexivity |].
  apply andb_true_iff in Hl. destruct Hl as [Ha Hl].
  destruct (ascii_dec a c) as [-> |]; [congruence | now apply IH].
Qed.

(** X18: whatever the user typed, the query string of the call has
    exactly four [=] and three [&]: the four parameters [resfmt],
    [listkey], [contactinfo] and [source], in this order. No character of
    the form's values or of the list key can add, end or split a
    parameter. *)
Theorem X18_query_has_four_parameters (env : Env) (values : FormValues) :
  let q := Url.serialize (searchParams (Page.request env values)) in
  count_occ ascii_dec (list_ascii_of_string q) "&"%char = 3 /\
  count_occ ascii_dec (list_ascii_of_string q) "="%char = 4 /\
  count_occ ascii_dec (list_ascii_of_string q) "#"%char = 0 /\
  count_occ ascii_dec (list_ascii_of_string q) " "%char = 0 /\
  map fst (searchParams (Page.request env values))
  = ["resfmt"; "listkey"; "contactinfo"; "source"].
Proof.
  intro q. subst q. unfold Url.serialize. simpl.
  assert (H : forall s c,
            Url.form_unreserved c || is_char "%" c || is_char "+" c = false ->
            count_occ ascii_dec
              (list_ascii_of_string (Url.form_urlencode s)) c = 0).
  { intros s c. apply count_occ_unsafe, form_urlencode_safe. }
  repeat split;
    repeat (rewrite ?chars_app, ?count_occ_app; simpl);
    rewrite !H by reflexivity; reflexivity.
Qed.

(** The JSON text of a contact record starts with the email member. *)
Lemma JSON_stringify_contactInfo (values : FormValues) :
  exists rest,
    Url.JSON_stringify (Page.contactInfo values)
    = String.append
        (String "{" (String Url.dquote
           (String.append "Contact Email"
              (String Url.dquote (String ":" (String Url.dquote ""))))))
        rest.
Proof.
  unfold Url.JSON_stringify, Page.contactInfo. simpl.
  destruct (spread_if (truthy (phone values)) [("Phone", phone values)]
            ++ spread_if (negb (String.eqb (description values) "Select"))
                 [("Description", description values)]);
    simpl; eexists; unfold Url.json_quote; simpl; reflexivity.
Qed.

(** X19: the contact record is percent-encoded twice. The handler encodes
    the JSON text with [encodeURIComponent] and the search parameters
    encode the result again, so every [%] of the first encoding is sent as
    [%25]: the value of [contactinfo] in the URL always starts with
    [%257B%2522Contact%2520Email%2522%253A%2522], and each character that
    [encodeURIComponent] escapes reaches the URL as [%25] followed by the
    two hexadecimal digits of each of its bytes. *)
Theorem X19_contactinfo_is_encoded_twice :
  (forall values : FormValues,
     exists rest,
       Url.form_urlencode
         (Url.param_text (EncodedJson (Page.contactInfo values)))
       = String.append "%257B%2522Contact%2520Email%2522%253A%2522" rest) /\
  (forall c : ascii,
     Url.uri_unreserved c = false ->
     Url.form_urlencode (Url.encodeURIComponent (String c ""))
     = String.concat ""
         (map (fun b =>
                 String.append "%25"
                   (String (Url.hex_upper (b / 16))
                      (String (Url.hex_upper (b mod 16)) "")))
              (Url.utf8 c))).
Proof.
  split.
  - intro values. unfold Url.param_text.
    destruct (JSON_stringify_contactInfo values) as [rest ->].
    rewrite encodeURIComponent_app, form_urlencode_app.
    eexists. reflexivity.
  - intro c.
    destruct c as [[] [] [] [] [] [] [] []]; vm_compute;
      solve [reflexivity | discriminate].
Qed.

(** X20: the URL passed to [fetch] is the endpoint followed by the four
    parameters; when no list key is configured the call is made all the
    same, with the text [undefined] as its list key. *)
Theorem X20_url_of_the_call
    (env : Env) (net : Request -> FetchOutcome) (values : FormValues)
    (st : State) :
  let req := Page.request env values in
  In (Fetch req) (effects (exec (Page.onSubmit env net values) st)) /\
  (exists rest,
     Url.href req
     = String.append
         "https://campaigns.zoho.com/api/v1.1/json/listsubscribe?resfmt=JSON&listkey="
         (String.append
            (Url.form_urlencode
               (match NEXT_PUBLIC_ZOHO_LIST_KEY env with
                | Some k => k
                | None => "undefined"
                end))
            (String.append "&contactinfo=%257B%2522Contact%2520Email%2522%253A%2522"
               (String.append rest "&source=WebsiteForm")))).
Proof.
  intro req. split.
  - destruct (Page_onSubmit_one_call env net values st) as (rest & -> & _).
    apply in_or_app. right. now left.
  - subst req. unfold Url.href, Url.serialize, Page.request.
    cbn [searchParams url map fst snd Url.param_text String.concat].
    destruct (JSON_stringify_contactInfo values) as [rest ->].
    rewrite encodeURIComponent_app, form_urlencode_app.
    exists (Url.form_urlencode (Url.encodeURIComponent rest)).
    unfold template. rewrite !append_assoc. reflexivity.
Qed.

(** ** More invariants of the reachable states *)

(** X21: in every state the page can reach from page load, the description
    field holds the empty string, one of the three labels of the selection
    control, or "Select"; and it holds "Select" only after a success has
    been shown. *)
Theorem X21_reachable_descriptions
    (email_ok : string -> bool) (env : Env) (evs : list Page.Event) :
  let st := Page.run email_ok env initial evs in
  description (form st) = "" \/
  (exists i, description (form st) = item_value i) \/
  (description (form st) = "Select" /\ showSuccess st = true).
Proof.
  unfold Page.run.
  assert (H0 : description (form initial) = "" \/
               (exists i, description (form initial) = item_value i) \/
               (description (form initial) = "Select"
                /\ showSuccess initial = true))
    by (now left).
  revert H0. generalize initial as st.
  induction evs as [| ev evs IH]; intros st Hst; simpl; [exact Hst |].
  apply IH. destruct ev as [text | text | item | reply];
    try (simpl; exact Hst).
  - right. left. now exists item.
  - destruct (loading st) eqn:Hl.
    + unfold Page.step, button_disabled. rewrite Hl. exact Hst.
    + destruct (resolver email_ok (form st)) eqn:Hr.
      * rewrite (Page_press_submit_valid _ _ _ _ Hl Hr).
        destruct (Page_onSubmit_success_or_unchanged env (fun _ => reply)
                    (form st) st) as [(Hs & Hf) | (Hs & Hf)];
          rewrite Hf, Hs; [right; right; now split | exact Hst].
      * rewrite Page_press_submit_invalid; [exact Hst |].
        rewrite Hr. discriminate.
Qed.

(** X22: in every state either page can reach from page load, the stored
    phone value is made of digits, plus signs and hyphens only: the
    normalisation holds across edits, resets and failed submissions. *)
Theorem X22_stored_phone_is_normalised
    (email_ok : string -> bool) (env : Env)
    (evs : list Page.Event) (evs' : list Stub.Event) :
  forallb is_phone_char
    (list_ascii_of_string (phone (form (Page.run email_ok env initial evs))))
  = true /\
  forallb is_phone_char
    (list_ascii_of_string (phone (form (Stub.run email_ok initial evs'))))
  = true.
Proof.
  split; [apply Page_stored_phone_invariant |].
  unfold Stub.run.
  assert (H0 : forallb is_phone_char
                 (list_ascii_of_string (phone (form initial))) = true)
    by reflexivity.
  revert H0. generalize initial as st.
  induction evs' as [| ev evs' IH]; intros st Hst; simpl; [exact Hst |].
  apply IH. destruct ev as [text | text | item |]; simpl; try exact Hst.
  - rewrite phone_onChange_chars. apply forallb_filter_weaken. auto.
  - destruct (button_disabled st); [exact Hst |].
    unfold exec, handleSubmit.
    destruct (resolver email_ok (form st)); [reflexivity | exact Hst].
Qed.
